(** * godocker: a shallow embedding of docker.go

    The package is a thin wrapper over the Docker engine client and over
    the build-context helpers of the docker packages.  Everything it calls
    (the engine client, the filesystem, the JSON decoder, the archive
    package) is outside the repository, so those calls are oracles: fields
    of the records [FileSystem] and [Client] and of the response streams.
    The code of docker.go itself is translated statement by statement into
    a small monad that carries
      - the ordered log of the external calls a function makes, and
      - whether the function returned or panicked.
    Go's [error] results stay ordinary values: [None] is [nil]. *)

From stdpp Require Import base option list strings gmap fin_maps.
From Stdlib Require Import ZArith Ascii String DecimalString.

Local Open Scope string_scope.
Local Open Scope list_scope.

(** ** Error values *)

(** [*jsonmessage.JSONError] *)
Module jsonmessage.

Record JSONError : Type := mkJSONError {
  Code : Z;
  Message : string
}.

(** The fields of [jsonmessage.JSONMessage] that a response line may
    carry; [Error] is a pointer in Go, hence an option. *)
Record JSONMessage : Type := mkJSONMessage {
  Stream : string;
  Status : string;
  ID : string;
  Error : option JSONError;
  ErrorMessage : string
}.

End jsonmessage.

(** Go [error] values.  The first three constructors are the values the
    outside world hands to the package; the last three are the only ones
    docker.go can surface or build itself ([jm.Error], [errors.New],
    [fmt.Errorf]). *)
Inductive error : Type :=
  | io_EOF
  | SysError (msg : string) (notExist : bool)
  | LibError (msg : string)
  | JSONErrorValue (je : jsonmessage.JSONError)
  | errors_New (msg : string)
  | fmt_Errorf (msg : string).

#[export] Instance JSONError_eq_dec : EqDecision jsonmessage.JSONError.
Proof. solve_decision. Defined.

#[export] Instance error_eq_dec : EqDecision error.
Proof. solve_decision. Defined.

(** The [Error()] method, used by the [%s] and [%v] verbs of [fmt.Errorf]. *)
Definition Error_method (e : error) : string :=
  match e with
  | io_EOF => "EOF"
  | SysError msg _ => msg
  | LibError msg => msg
  | JSONErrorValue je => jsonmessage.Message je
  | errors_New msg => msg
  | fmt_Errorf msg => msg
  end.

(** [os.IsNotExist]; it is false on [nil]. *)
Definition os_IsNotExist (err : option error) : bool :=
  match err with
  | Some (SysError _ b) => b
  | _ => false
  end.

(** ** Streams *)

(** One call of [Decode] of a [json.Decoder] on a response body either fills
    the message or fails. *)
Inductive DecodeStep : Type :=
  | Msg (jm : jsonmessage.JSONMessage)
  | Fail (err : error).

(** An [io.ReadCloser] handed out by the outside world: an identity, and
    what successive [Decode] calls on it produce.  Once the list is used up
    [Decode] reports [io.EOF].  Bodies are finite: a body that never ends
    keeps the scanning loop running for ever and has no place here. *)
Record ReadCloser : Type := mkReadCloser {
  handle : nat;
  stream : list DecodeStep
}.

(** ** The log of external calls *)

Module types.

Record AuthConfig : Type := mkAuthConfig {
  Username : string;
  Password : string
}.

Record ImageBuildOptions : Type := mkImageBuildOptions {
  Tags : list string;
  NoCache : bool;
  Remove : bool;
  ForceRemove : bool;
  PullParent : bool;
  Dockerfile : string;
  AuthConfigs : gmap string AuthConfig;
  BuildArgs : gmap string (option string)
}.

Record ImageBuildResponse : Type := mkImageBuildResponse {
  Body : option ReadCloser;
  OSType : string
}.

(** Both option structs have a field [RegistryAuth]; the prefix tells
    the two projections apart. *)
Record ImagePullOptions : Type := mkImagePullOptions {
  pull_All : bool;
  pull_RegistryAuth : string
}.

Record ImagePushOptions : Type := mkImagePushOptions {
  push_RegistryAuth : string
}.

(** [filters.Args] of the client library: a map from a filter name to
    the set of its values. *)
Record ImageListOptions : Type := mkImageListOptions {
  Filters : gmap string (gset string)
}.

Record ImageRemoveOptions : Type := mkImageRemoveOptions {
  Force : bool;
  PruneChildren : bool
}.

Record ImageSummary : Type := mkImageSummary {
  Containers : Z;
  Created : Z;
  ID : string;
  Labels : gmap string string;
  ParentID : string;
  RepoDigests : list string;
  RepoTags : list string;
  SharedSize : Z;
  Size : Z;
  VirtualSize : Z
}.

End types.

Module archive.

Inductive Compression : Type := Uncompressed | Bzip2 | Gzip | Xz.

Record TarOptions : Type := mkTarOptions {
  IncludeFiles : list string;
  ExcludePatterns : list string;
  Compression_ : Compression
}.

End archive.

Inductive Event : Type :=
  | Lstat_ (name : string)
  | Open_ (name : string)
  | ReadAll_ (file : option nat)
  | ValidateContextDirectory_ (dir : string) (excludes : list string)
  | TarWithOptions_ (dir : string) (options : archive.TarOptions)
  | ImageBuild_ (buildCtx : option ReadCloser) (options : types.ImageBuildOptions)
  | ImagePull_ (ref : string) (options : types.ImagePullOptions)
  | ImagePush_ (ref : string) (options : types.ImagePushOptions)
  | ImageList_ (options : types.ImageListOptions)
  | ImageTag_ (imageID ref : string)
  | ImageRemove_ (imageID : string) (options : types.ImageRemoveOptions)
  | Decode_ (h : nat)
  | Close_ (h : nat).

(** ** The monad *)

Inductive Outcome (A : Type) : Type :=
  | Returned (a : A)
  | Panicked.
Arguments Returned {A} a.
Arguments Panicked {A}.

Definition M (A : Type) : Type := (list Event * Outcome A)%type.

Definition ret {A} (a : A) : M A := ([], Returned a).

Definition bind {A B} (m : M A) (f : A -> M B) : M B :=
  match m with
  | (l, Returned a) => let '(l', r) := f a in (l ++ l', r)
  | (l, Panicked) => (l, Panicked)
  end.

Definition emit (e : Event) : M unit := ([e], Returned tt).

Definition panic {A} : M A := ([], Panicked).

(** [defer d; body]: [d] runs when [body] is over, also when it panicked. *)
Definition defer {A} (d : M unit) (body : M A) : M A :=
  let '(l, r) := body in
  let '(l', r') := d in
  (l ++ l', match r' with Returned _ => r | Panicked => Panicked end).

Notation "'let*' x := c1 'in' c2" := (bind c1 (fun x => c2))
  (at level 10, x pattern, c1 at level 100, c2 at level 200).
Notation "'run' c1 'then' c2" := (bind c1 (fun _ : unit => c2))
  (at level 10, c1 at level 100, c2 at level 200).

Definition log_of {A} (m : M A) : list Event := fst m.
Definition outcome_of {A} (m : M A) : Outcome A := snd m.

(** [rc.Close()] on a non-nil [io.ReadCloser]. *)
Definition Close (rc : ReadCloser) : M unit := emit (Close_ (handle rc)).

(** ** detectErrorMessage (docker.go, lines 301-326) *)

(** The body of the [for] loop, one [Decode] per round, on what is left of
    the stream of the reader [h]. *)
Fixpoint detectLoop (h : nat) (rest : list DecodeStep) : M (option error) :=
  run emit (Decode_ h) then
  match rest with
  | [] => ret None                                   (* err == io.EOF: break *)
  | Fail err :: _ =>
      if decide (err = io_EOF) then ret None         (* err == io.EOF: break *)
      else ret (Some err)                            (* return err *)
  | Msg jm :: rest' =>
      match jsonmessage.Error jm with
      | Some je => ret (Some (JSONErrorValue je))    (* return jm.Error *)
      | None =>
          if (0 <? String.length (jsonmessage.ErrorMessage jm))%nat
          then ret (Some (errors_New (jsonmessage.ErrorMessage jm)))
          else detectLoop h rest'
      end
  end.

(** [json.NewDecoder(in)] accepts a nil reader; the first [Decode] then
    calls [Read] on the nil interface and panics. *)
Definition detectErrorMessage (rd : option ReadCloser) : M (option error) :=
  match rd with
  | None => panic
  | Some rc => detectLoop (handle rc) (stream rc)
  end.

(** ** The outside world *)

(** What docker.go calls in [os], [path], [path/filepath] and in the docker
    packages [archive], [dockerignore], [fileutils] and [builder].  The
    filesystem does not change while one function of the package runs, so
    each call is a function of its arguments.  A Go result pair
    [(value, error)] is a pair whose second component is [None] for [nil]. *)
Record FileSystem : Type := mkFileSystem {
  filepath_Join : string -> string -> string;
  path_Join : string -> string -> string;
  filepath_Abs : string -> string * option error;
  filepath_Rel : string -> string -> string * option error;
  os_Lstat : string -> option error;
  os_Open : string -> option nat * option error;
  archive_CanonicalTarNameForPath : string -> string * option error;
  dockerignore_ReadAll : option nat -> list string * option error;
  fileutils_Matches : string -> list string -> bool * option error;
  builder_ValidateContextDirectory : string -> list string -> option error;
  archive_TarWithOptions :
    string -> archive.TarOptions -> option ReadCloser * option error
}.

(** The engine client [*client.Client]; the [context.Context] argument of
    every method is handed over as it is and left out. *)
Module client.

Record Client : Type := mkClient {
  ImageBuild :
    option ReadCloser -> types.ImageBuildOptions ->
    types.ImageBuildResponse * option error;
  ImagePull : string -> types.ImagePullOptions -> option ReadCloser * option error;
  ImagePush : string -> types.ImagePushOptions -> option ReadCloser * option error;
  ImageList : types.ImageListOptions -> list types.ImageSummary * option error;
  ImageTag : string -> string -> option error;
  ImageRemove : string -> types.ImageRemoveOptions -> option error
}.

End client.

(** [strings.ToLower] on the ASCII letters; docker.go applies it to the
    constant [defaultDockerfile] only. *)
Definition lower_ascii (c : ascii) : ascii :=
  let n := nat_of_ascii c in
  if ((65 <=? n) && (n <=? 90))%nat then ascii_of_nat (n + 32) else c.

Fixpoint strings_ToLower (s : string) : string :=
  match s with
  | EmptyString => EmptyString
  | String c s' => String (lower_ascii c) (strings_ToLower s')
  end.

(** ** Constants (lines 25-29) *)

Definition defaultDockerAPIVersion : string := "v1.23".
Definition defaultDockerfile : string := "Dockerfile".
Definition defaultDockerHost : string := "tcp://127.0.0.1:2376".

(** ** ImageSummary (lines 32-43) *)

Record ImageSummary : Type := mkImageSummary {
  Containers : Z;
  Created : Z;
  ID : string;
  Labels : gmap string string;
  ParentID : string;
  RepoDigests : list string;
  RepoTags : list string;
  SharedSize : Z;
  Size : Z;
  VirtualSize : Z
}.

(** ** dockerCmd and Configs (lines 55-72) *)

Record dockerCmd : Type := mkDockerCmd {
  cli : client.Client;
  dockerHost : string;
  registry : string;
  registryAuthString : string;
  registryAuthMap : gmap string types.AuthConfig;
  noCache : bool;
  forceRm : bool;
  pull : bool
}.

Record Configs : Type := mkConfigs {
  Host : string;
  Registry : string;
  User : string;
  Passwd : string
}.

(** [filters.NewArgs()] and [args.Add(k, v)] of the client library. *)
Module filters.

Definition NewArgs : gmap string (gset string) := ∅.

Definition Add (name value : string) (fields : gmap string (gset string))
  : gmap string (gset string) :=
  match fields !! name with
  | Some values => <[name := {[value]} ∪ values]> fields
  | None => <[name := {[value]}]> fields
  end.

End filters.

(** [defer x.Close()] on an interface value [x]: the method is looked up
    when the [defer] statement runs, which panics on a nil interface. *)
Definition deferClose {A} (x : option ReadCloser) (body : M A) : M A :=
  match x with
  | None => panic
  | Some rc => defer (Close rc) body
  end.

(** [if x != nil { defer x.Close() }] *)
Definition deferCloseIfNotNil {A} (x : option ReadCloser) (body : M A) : M A :=
  match x with
  | None => body
  | Some rc => defer (Close rc) body
  end.

(** ** CreateTar (lines 214-299) *)

Section CreateTar.

Variable fs : FileSystem.

Definition Lstat (name : string) : M (option error) :=
  run emit (Lstat_ name) then ret (os_Lstat fs name).

Definition Open (name : string) : M (option nat * option error) :=
  run emit (Open_ name) then ret (os_Open fs name).

Definition ReadAll (file : option nat) : M (list string * option error) :=
  run emit (ReadAll_ file) then ret (dockerignore_ReadAll fs file).

Definition ValidateContextDirectory (dir : string) (excludes : list string)
  : M (option error) :=
  run emit (ValidateContextDirectory_ dir excludes) then
  ret (builder_ValidateContextDirectory fs dir excludes).

Definition TarWithOptions (dir : string) (options : archive.TarOptions)
  : M (option ReadCloser * option error) :=
  run emit (TarWithOptions_ dir options) then
  ret (archive_TarWithOptions fs dir options).

(** Lines 224-237: the value of [(dockerfileName, filename)] after the
    [if dockerfile == ""] statement, from their values before it. *)
Definition CreateTar_default (absContextDirectory dockerfile : string)
    (dockerfileName filename : string) : M (string * string) :=
  if decide (dockerfile = "") then
    let dockerfileName := defaultDockerfile in
    let filename := filepath_Join fs absContextDirectory dockerfileName in
    let* err := Lstat filename in
    if os_IsNotExist err then
      let tmpFN := path_Join fs absContextDirectory (strings_ToLower dockerfileName) in
      let* err := Lstat tmpFN in
      match err with
      | None => ret (strings_ToLower dockerfileName, tmpFN)
      | Some _ => ret (dockerfileName, filename)
      end
    else ret (dockerfileName, filename)
  else ret (dockerfileName, filename).

(** Lines 215-258: either the function returns ([inr]) or it goes on
    with the Dockerfile name relative to the build context ([inl]). *)
Definition CreateTar_locate (contextDirectory dockerfile : string)
  : M (string + option ReadCloser * option error) :=
  let dockerfileName := filepath_Join fs contextDirectory dockerfile in
  let '(absContextDirectory, err) := filepath_Abs fs contextDirectory in
  match err with
  | Some e => ret (inr (None, Some e))
  | None =>
  let filename := dockerfileName in
  let* (dockerfileName, filename) :=
    CreateTar_default absContextDirectory dockerfile dockerfileName filename in
  let origDockerfile := dockerfileName in
  let '(filename, err) := filepath_Abs fs filename in
  match err with
  | Some e => ret (inr (None, Some e))
  | None =>
  let '(dockerfileName, err) := filepath_Rel fs absContextDirectory filename in
  match err with
  | Some e => ret (inr (None, Some e))
  | None =>
  let '(dockerfileName, err) := archive_CanonicalTarNameForPath fs dockerfileName in
  match err with
  | Some e =>
      ret (inr (None, Some (fmt_Errorf
        ("Cannot canonicalize dockerfile path " ++ dockerfileName ++ ": "
           ++ Error_method e))))
  | None =>
  let* err := Lstat filename in
  if os_IsNotExist err then
    ret (inr (None, Some (fmt_Errorf ("Cannot locate Dockerfile: " ++ origDockerfile))))
  else ret (inl dockerfileName)
  end end end end.

(** Lines 262-274: the exclusion patterns, or the error to return. *)
Definition CreateTar_excludes (contextDirectory : string)
  : M (list string * option error) :=
  let dockerIgnorePath := path_Join fs contextDirectory ".dockerignore" in
  let* (dockerIgnore, err) := Open dockerIgnorePath in
  match err with
  | Some e =>
      if negb (os_IsNotExist (Some e)) then ret ([], Some e)
      else ret ([], None)                          (* make([]string, 0) *)
  | None =>
      let* (excludes, err) := ReadAll dockerIgnore in
      match err with
      | Some e => ret ([], Some e)
      | None => ret (excludes, None)
      end
  end.

(** Lines 259-298, with [dockerfileName] as line 251 left it. *)
Definition CreateTar_archive (contextDirectory dockerfileName : string)
  : M (option ReadCloser * option error) :=
  let includes := ["."] in
  let* (excludes, err) := CreateTar_excludes contextDirectory in
  match err with
  | Some e => ret (None, Some e)
  | None =>
  let '(keepThem1, _) := fileutils_Matches fs ".dockerignore" excludes in
  let '(keepThem2, _) := fileutils_Matches fs dockerfileName excludes in
  let includes :=
    if keepThem1 || keepThem2
    then includes ++ [".dockerignore"; dockerfileName]
    else includes in
  let* err := ValidateContextDirectory contextDirectory excludes in
  match err with
  | Some e =>
      ret (None, Some (fmt_Errorf
        ("Error checking context is accessible: '" ++ Error_method e
           ++ "'. Please check permissions and try again.")))
  | None =>
  let options :=
    {| archive.Compression_ := archive.Uncompressed;
       archive.ExcludePatterns := excludes;
       archive.IncludeFiles := includes |} in
  TarWithOptions contextDirectory options
  end end.

Definition CreateTar (contextDirectory dockerfile : string)
  : M (option ReadCloser * option error) :=
  let* located := CreateTar_locate contextDirectory dockerfile in
  match located with
  | inr result => ret result
  | inl dockerfileName => CreateTar_archive contextDirectory dockerfileName
  end.

End CreateTar.

(** ** NewClient (lines 75-101) *)

Section NewClient.

(** [client.NewClient(host, version, nil, nil)], which yields a client
    or an error, [json.Marshal] on an [AuthConfig] and
    [base64.URLEncoding.EncodeToString]. *)
Variable client_NewClient : string -> string -> client.Client + error.
Variable json_Marshal : types.AuthConfig -> list Byte.byte * option error.
Variable base64_URLEncoding_EncodeToString : list Byte.byte -> string.

Definition NewClient (cfg : Configs) : option dockerCmd * option error :=
  match client_NewClient (Host cfg) defaultDockerAPIVersion with
  | inr err => (None, Some err)
  | inl cli =>
      let auth :=
        {| types.Username := User cfg; types.Password := Passwd cfg |} in
      let '(authBytes, _) := json_Marshal auth in
      let authBase64 := base64_URLEncoding_EncodeToString authBytes in
      let docker :=
        {| cli := cli;
           dockerHost := Host cfg;
           registry := Registry cfg;
           registryAuthString := authBase64;
           registryAuthMap := {[ Registry cfg := auth ]};
           noCache := true;
           forceRm := true;
           pull := true |} in
      (Some docker, None)
  end.

End NewClient.

(** ** The operations (lines 103-211) *)

Section Operations.

Variable fs : FileSystem.

Definition call_ImageBuild (c : client.Client) (buildCtx : option ReadCloser)
    (options : types.ImageBuildOptions) : M (types.ImageBuildResponse * option error) :=
  run emit (ImageBuild_ buildCtx options) then ret (client.ImageBuild c buildCtx options).

Definition call_ImagePull (c : client.Client) (ref : string)
    (options : types.ImagePullOptions) : M (option ReadCloser * option error) :=
  run emit (ImagePull_ ref options) then ret (client.ImagePull c ref options).

Definition call_ImagePush (c : client.Client) (ref : string)
    (options : types.ImagePushOptions) : M (option ReadCloser * option error) :=
  run emit (ImagePush_ ref options) then ret (client.ImagePush c ref options).

Definition call_ImageList (c : client.Client) (options : types.ImageListOptions)
  : M (list types.ImageSummary * option error) :=
  run emit (ImageList_ options) then ret (client.ImageList c options).

Definition call_ImageTag (c : client.Client) (imageID ref : string) : M (option error) :=
  run emit (ImageTag_ imageID ref) then ret (client.ImageTag c imageID ref).

Definition call_ImageRemove (c : client.Client) (imageID : string)
    (options : types.ImageRemoveOptions) : M (option error) :=
  run emit (ImageRemove_ imageID options) then ret (client.ImageRemove c imageID options).

(** Lines 103-133. *)
Definition Build (docker : dockerCmd) (contextDirectory imagePath : string)
    (args : gmap string (option string)) : M (option error) :=
  let dockerfile := defaultDockerfile in
  let* (buildCtx, err) := CreateTar fs contextDirectory dockerfile in
  match err with
  | Some e => ret (Some e)
  | None =>
  deferClose buildCtx (
    let* (response, err) :=
      call_ImageBuild (cli docker) buildCtx
        {| types.Tags := [imagePath];
           types.NoCache := noCache docker;
           types.Remove := true;
           types.ForceRemove := forceRm docker;
           types.PullParent := pull docker;
           types.Dockerfile := defaultDockerfile;
           types.AuthConfigs := registryAuthMap docker;
           types.BuildArgs := args |} in
    deferClose (types.Body response) (
      match err with
      | Some e => ret (Some e)
      | None =>
      let* err := detectErrorMessage (types.Body response) in
      match err with
      | Some e => ret (Some e)
      | None => ret None
      end
      end))
  end.

(** Lines 135-150; the options are the zero value of the struct. *)
Definition Pull (docker : dockerCmd) (imagePath : string) : M (option error) :=
  let* (resp, err) :=
    call_ImagePull (cli docker) imagePath
      {| types.pull_All := false; types.pull_RegistryAuth := "" |} in
  deferCloseIfNotNil resp (
    match err with
    | Some e => ret (Some e)
    | None =>
    let* err := detectErrorMessage resp in
    match err with
    | Some e => ret (Some e)
    | None => ret None
    end
    end).

(** Lines 152-168. *)
Definition Push (docker : dockerCmd) (imagePath : string) : M (option error) :=
  let* (resp, err) :=
    call_ImagePush (cli docker) imagePath
      {| types.push_RegistryAuth := registryAuthString docker |} in
  deferCloseIfNotNil resp (
    match err with
    | Some e => ret (Some e)
    | None =>
    let* err := detectErrorMessage resp in
    match err with
    | Some e => ret (Some e)
    | None => ret None
    end
    end).

(** Lines 170-197.  [range] visits the entries of a Go map in an order
    that is not specified; [map_fold] visits them in some order. *)
Definition List (docker : dockerCmd) (filter : gmap string string)
  : M (list ImageSummary * option error) :=
  let args := filters.NewArgs in
  let args := map_fold (fun k v args => filters.Add k v args) args filter in
  let* (imageSummaryList, err) :=
    call_ImageList (cli docker) {| types.Filters := args |} in
  match err with
  | Some e => ret ([], Some e)
  | None =>
  let imageSummaryPointerList :=
    foldl (fun acc summary =>
      acc ++ [ {| Containers := types.Containers summary;
                  Created := types.Created summary;
                  ID := types.ID summary;
                  Labels := types.Labels summary;
                  ParentID := types.ParentID summary;
                  RepoDigests := types.RepoDigests summary;
                  RepoTags := types.RepoTags summary;
                  SharedSize := types.SharedSize summary;
                  Size := types.Size summary;
                  VirtualSize := types.VirtualSize summary |} ])
      [] imageSummaryList in
  ret (imageSummaryPointerList, None)
  end.

(** Lines 198-204. *)
Definition Tag (docker : dockerCmd) (imagePath newImagePath : string) : M (option error) :=
  let* err := call_ImageTag (cli docker) imagePath newImagePath in
  match err with
  | Some e => ret (Some e)
  | None => ret None
  end.

(** Lines 205-211; the options are the zero value of the struct. *)
Definition Rmi (docker : dockerCmd) (imagePath : string) : M (option error) :=
  let* err :=
    call_ImageRemove (cli docker) imagePath
      {| types.Force := false; types.PruneChildren := false |} in
  match err with
  | Some e => ret (Some e)
  | None => ret None
  end.

End Operations.

(** * Vocabulary of the properties *)

(** ** Reading the log *)

(** The calls on the engine client. *)
Definition is_engine_call (ev : Event) : bool :=
  match ev with
  | ImageBuild_ _ _ | ImagePull_ _ _ | ImagePush_ _ _
  | ImageList_ _ | ImageTag_ _ _ | ImageRemove_ _ _ => true
  | _ => false
  end.

Definition engine_calls (log : list Event) : nat :=
  List.length (List.filter is_engine_call log).

Definition is_decode (ev : Event) : bool :=
  match ev with
  | Decode_ _ => true
  | _ => false
  end.

(** The calls on the filesystem and on the docker packages that work on
    it. *)
Definition is_fs_call (ev : Event) : bool :=
  match ev with
  | Lstat_ _ | Open_ _ | ReadAll_ _
  | ValidateContextDirectory_ _ _ | TarWithOptions_ _ _ => true
  | _ => false
  end.

(** A computation that returns (it does not panic) and makes no engine
    call and no [Decode] or [Close] on a stream. *)
Definition local {A} (m : M A) : Prop :=
  ∃ l res, m = (l, Returned res) ∧ forallb is_fs_call l = true.

(** [n] calls of [Decode] on the response, and the [Close] of the
    response if there is one. *)
Definition scan_log (resp : option ReadCloser) (n : nat) : list Event :=
  match resp with
  | Some rc => replicate n (Decode_ (handle rc))
  | None => []
  end.

Definition close_log (resp : option ReadCloser) : list Event :=
  match resp with
  | Some rc => [Close_ (handle rc)]
  | None => []
  end.

(** A scan is a run of [Decode] calls on the response, at most one per
    step of the stream and one more; there is none after a failed call. *)
Definition scan_of (resp : option ReadCloser) (err : option error)
    (l : list Event) : Prop :=
  ∃ n, l = scan_log resp n
       ∧ (is_Some err -> n = 0%nat)
       ∧ (∀ rc, resp = Some rc -> (n ≤ S (List.length (stream rc)))%nat).

(** ** What the words of the specification mean on a stream *)

(** The error embedded in a message: its [Error] object if there is one,
    otherwise an error made of its [ErrorMessage] if that is not empty. *)
Definition embedded_error (jm : jsonmessage.JSONMessage) : option error :=
  match jsonmessage.Error jm with
  | Some je => Some (JSONErrorValue je)
  | None =>
      if decide (jsonmessage.ErrorMessage jm = "") then None
      else Some (errors_New (jsonmessage.ErrorMessage jm))
  end.

(** A decoded message that carries no embedded error. *)
Definition clean (step : DecodeStep) : Prop :=
  match step with
  | Msg jm => embedded_error jm = None
  | Fail _ => False
  end.

(** The decoder is at the end of the stream: nothing is left, or it
    reports [io.EOF]. *)
Definition end_of_stream (rest : list DecodeStep) : Prop :=
  match rest with
  | [] => True
  | Fail err :: _ => err = io_EOF
  | Msg _ :: _ => False
  end.

(** Decoding reaches the end of the stream and no message on the way
    carries an embedded error. *)
Definition ends_clean (s : list DecodeStep) : Prop :=
  ∃ pre rest, s = pre ++ rest ∧ Forall clean pre ∧ end_of_stream rest.

(** ** The requests the operations send *)

(** The options of the [ImagePull], [ImagePush] and [ImageRemove] calls
    (lines 136-138, 153-155, 206). *)
Definition pull_options : types.ImagePullOptions :=
  {| types.pull_All := false; types.pull_RegistryAuth := "" |}.

Definition push_options (docker : dockerCmd) : types.ImagePushOptions :=
  {| types.push_RegistryAuth := registryAuthString docker |}.

Definition remove_options : types.ImageRemoveOptions :=
  {| types.Force := false; types.PruneChildren := false |}.

(** The filter arguments [List] builds (lines 171-174). *)
Definition list_filters (filter : gmap string string) : gmap string (gset string) :=
  map_fold (fun k v args => filters.Add k v args) filters.NewArgs filter.

(** The options of the [ImageBuild] call (lines 112-121). *)
Definition build_options (docker : dockerCmd) (imagePath : string)
    (args : gmap string (option string)) : types.ImageBuildOptions :=
  {| types.Tags := [imagePath];
     types.NoCache := noCache docker;
     types.Remove := true;
     types.ForceRemove := forceRm docker;
     types.PullParent := pull docker;
     types.Dockerfile := defaultDockerfile;
     types.AuthConfigs := registryAuthMap docker;
     types.BuildArgs := args |}.

(** The options of the [TarWithOptions] call (lines 259-260, 282-296). *)
Definition tar_options (fs : FileSystem) (dockerfileName : string)
    (excludes : list string) : archive.TarOptions :=
  {| archive.Compression_ := archive.Uncompressed;
     archive.ExcludePatterns := excludes;
     archive.IncludeFiles :=
       if fst (fileutils_Matches fs ".dockerignore" excludes)
          || fst (fileutils_Matches fs dockerfileName excludes)
       then ["."; ".dockerignore"; dockerfileName]
       else ["."] |}.

(** ** The code after a call, as one computation of its results *)

(** The statements after the call in [Pull] and [Push] (lines 142-149 and
    159-167), as one computation of the pair the call returned. *)
Definition after_call (resp : option ReadCloser) (err : option error)
  : M (option error) :=
  match err with
  | Some e => ret (Some e)
  | None =>
      let* err := detectErrorMessage resp in
      match err with
      | Some e => ret (Some e)
      | None => ret None
      end
  end.

(** What [Build] does once [CreateTar] has returned [created] with the
    log [l]. *)
Definition Build_after_CreateTar (docker : dockerCmd) (imagePath : string)
    (args : gmap string (option string)) (l : list Event)
    (created : option ReadCloser * option error) : M (option error) :=
  match created with
  | (_, Some e) => (l, Returned (Some e))
  | (None, None) => (l, Panicked)
  | (Some buildCtx, None) =>
      let options := build_options docker imagePath args in
      let '(response, err) :=
        client.ImageBuild (cli docker) (Some buildCtx) options in
      match types.Body response with
      | None =>
          (l ++ [ImageBuild_ (Some buildCtx) options; Close_ (handle buildCtx)],
           Panicked)
      | Some body =>
          (l ++ ImageBuild_ (Some buildCtx) options
             :: log_of (after_call (Some body) err)
             ++ [Close_ (handle body); Close_ (handle buildCtx)],
           outcome_of (after_call (Some body) err))
      end
  end.

(** Lines 239-258, once the Dockerfile is chosen. *)
Definition CreateTar_check (fs : FileSystem) (abs : string)
    (chosen : string * string) (l : list Event)
  : M (string + option ReadCloser * option error) :=
  match filepath_Abs fs (snd chosen) with
  | (_, Some e) => (l, Returned (inr (None, Some e)))
  | (filename, None) =>
  match filepath_Rel fs abs filename with
  | (_, Some e) => (l, Returned (inr (None, Some e)))
  | (rel, None) =>
  match archive_CanonicalTarNameForPath fs rel with
  | (name, Some e) =>
      (l, Returned (inr (None, Some (fmt_Errorf
        ("Cannot canonicalize dockerfile path " ++ name ++ ": " ++ Error_method e)))))
  | (name, None) =>
      (l ++ [Lstat_ filename],
       Returned
         (if os_IsNotExist (os_Lstat fs filename)
          then inr (None, Some (fmt_Errorf ("Cannot locate Dockerfile: " ++ fst chosen)))
          else inl name))
  end end end.

(** Lines 288-298, with the exclusion patterns at hand. *)
Definition CreateTar_send (fs : FileSystem) (contextDirectory dockerfileName : string)
    (excludes : list string) : M (option ReadCloser * option error) :=
  match builder_ValidateContextDirectory fs contextDirectory excludes with
  | Some e =>
      ([ValidateContextDirectory_ contextDirectory excludes],
       Returned (None, Some (fmt_Errorf
         ("Error checking context is accessible: '" ++ Error_method e
            ++ "'. Please check permissions and try again."))))
  | None =>
      ([ValidateContextDirectory_ contextDirectory excludes;
        TarWithOptions_ contextDirectory (tar_options fs dockerfileName excludes)],
       Returned (archive_TarWithOptions fs contextDirectory
                   (tar_options fs dockerfileName excludes)))
  end.

(** ** The Dockerfile and the image records, in the words of the specification *)

(** The name and the file that lines 222-237 settle on, in the words of
    the specification: the given name joined to the context directory;
    for the empty name, ["Dockerfile"] in the context directory, and the
    lowercase ["dockerfile"] instead only if ["Dockerfile"] is absent and
    ["dockerfile"] exists. *)
Definition chosen_Dockerfile (fs : FileSystem)
    (contextDirectory absContextDirectory dockerfile : string) : string * string :=
  if decide (dockerfile = "") then
    let upper := filepath_Join fs absContextDirectory "Dockerfile" in
    let lower := path_Join fs absContextDirectory "dockerfile" in
    if os_IsNotExist (os_Lstat fs upper) && bool_decide (os_Lstat fs lower = None)
    then ("dockerfile", lower)
    else ("Dockerfile", upper)
  else (filepath_Join fs contextDirectory dockerfile,
        filepath_Join fs contextDirectory dockerfile).

(** The files probed on the way. *)
Definition probed_Dockerfiles (fs : FileSystem)
    (absContextDirectory dockerfile : string) : list Event :=
  if decide (dockerfile = "") then
    let upper := filepath_Join fs absContextDirectory "Dockerfile" in
    let lower := path_Join fs absContextDirectory "dockerfile" in
    if os_IsNotExist (os_Lstat fs upper) then [Lstat_ upper; Lstat_ lower]
    else [Lstat_ upper]
  else [].

(** Every field of [image] is the field of the same name of [summary]. *)
Definition same_fields (image : ImageSummary) (summary : types.ImageSummary) : Prop :=
  Containers image = types.Containers summary
  ∧ Created image = types.Created summary
  ∧ ID image = types.ID summary
  ∧ Labels image = types.Labels summary
  ∧ ParentID image = types.ParentID summary
  ∧ RepoDigests image = types.RepoDigests summary
  ∧ RepoTags image = types.RepoTags summary
  ∧ SharedSize image = types.SharedSize summary
  ∧ Size image = types.Size summary
  ∧ VirtualSize image = types.VirtualSize summary.

(** * A sample world

    Concrete instances of the oracles, on which the statements below are
    run: response bodies, a Unix-like filesystem given by the list of its
    files, and an engine given by its answers. *)

Definition progress_message : jsonmessage.JSONMessage :=
  {| jsonmessage.Stream := ""; jsonmessage.Status := "Pulling fs layer";
     jsonmessage.ID := "a3ed95caeb02"; jsonmessage.Error := None;
     jsonmessage.ErrorMessage := "" |}.

Definition failure_message : jsonmessage.JSONMessage :=
  {| jsonmessage.Stream := ""; jsonmessage.Status := "";
     jsonmessage.ID := ""; jsonmessage.Error := None;
     jsonmessage.ErrorMessage := "manifest unknown" |}.

Definition detailed_failure_message : jsonmessage.JSONMessage :=
  {| jsonmessage.Stream := ""; jsonmessage.Status := "";
     jsonmessage.ID := "";
     jsonmessage.Error :=
       Some {| jsonmessage.Code := 1; jsonmessage.Message := "unauthorized" |};
     jsonmessage.ErrorMessage := "unauthorized" |}.

Definition failing_body : ReadCloser :=
  {| handle := 7;
     stream := [Msg progress_message; Msg failure_message;
                Msg detailed_failure_message] |}.

Definition clean_body : ReadCloser :=
  {| handle := 8; stream := [Msg progress_message; Msg progress_message] |}.

(** A body that a proxy has cut short with an HTML page: the second
    [Decode] fails on it. *)
Definition garbled_body : ReadCloser :=
  {| handle := 9;
     stream := [Msg progress_message;
                Fail (LibError "invalid character '<' looking for beginning of value")] |}.

Definition no_such_file (op name : string) : error :=
  SysError (op ++ " " ++ name ++ ": no such file or directory") true.

Definition has_file (files : list string) (name : string) : bool :=
  existsb (String.eqb name) files.

(** [filepath.Rel] for a target below the base directory. *)
Definition sample_Rel (base targ : string) : string * option error :=
  if String.prefix (base ++ "/") targ
  then (substring (S (String.length base))
          (String.length targ - S (String.length base)) targ, None)
  else ("", Some (LibError ("Rel: can't make " ++ targ ++ " relative to " ++ base))).

(** Absolute paths only; patterns match a name when they are equal to it. *)
Definition sample_fs (files : list string) (patterns : list string)
    (accessible : option error) : FileSystem :=
  {| filepath_Join := fun dir name =>
       if String.eqb name "" then dir else (dir ++ "/" ++ name)%string;
     path_Join := fun dir name =>
       if String.eqb name "" then dir else (dir ++ "/" ++ name)%string;
     filepath_Abs := fun name => (name, None);
     filepath_Rel := sample_Rel;
     os_Lstat := fun name =>
       if has_file files name then None else Some (no_such_file "lstat" name);
     os_Open := fun name =>
       if has_file files name then (Some 3%nat, None)
       else (None, Some (no_such_file "open" name));
     archive_CanonicalTarNameForPath := fun name => (name, None);
     dockerignore_ReadAll := fun _ => (patterns, None);
     fileutils_Matches := fun name excludes =>
       (existsb (String.eqb name) excludes, None);
     builder_ValidateContextDirectory := fun _ _ => accessible;
     archive_TarWithOptions := fun _ _ =>
       (Some {| handle := 1; stream := [] |}, None) |}.

Definition fs_plain : FileSystem :=
  sample_fs ["/src/app/Dockerfile"; "/src/app/main.go"] [] None.

Definition fs_no_Dockerfile : FileSystem :=
  sample_fs ["/src/app/main.go"] [] None.

Definition fs_lowercase : FileSystem :=
  sample_fs ["/src/app/dockerfile"; "/src/app/main.go"] [] None.

Definition fs_ignoring : FileSystem :=
  sample_fs ["/src/app/Dockerfile"; "/src/app/.dockerignore"; "/src/app/main.go"]
    ["Dockerfile"; "node_modules"] None.

Definition permission_denied : error :=
  SysError "can't stat '/src/app/secret'" false.

Definition fs_denied : FileSystem :=
  sample_fs ["/src/app/Dockerfile"; "/src/app/secret"] [] (Some permission_denied).

Definition connection_refused : error :=
  LibError "Cannot connect to the Docker daemon. Is the docker daemon running on this host?".

(** An engine that answers every call; its registry turns the push down
    in the response stream. *)
Definition engine_up : client.Client :=
  {| client.ImageBuild := fun _ _ =>
       ({| types.Body := Some clean_body; types.OSType := "linux" |}, None);
     client.ImagePull := fun _ _ => (Some clean_body, None);
     client.ImagePush := fun _ _ => (Some failing_body, None);
     client.ImageList := fun _ =>
       ([ {| types.Containers := (-1); types.Created := 1500000000;
             types.ID := "sha256:0ef2e08ed3fa";
             types.Labels := {[ "maintainer" := "ops" ]};
             types.ParentID := "";
             types.RepoDigests := [];
             types.RepoTags := ["ubuntu:16.04"];
             types.SharedSize := (-1); types.Size := 120104260;
             types.VirtualSize := 120104260 |};
          {| types.Containers := (-1); types.Created := 1500000100;
             types.ID := "sha256:7328f6f8b418";
             types.Labels := ∅;
             types.ParentID := "sha256:0ef2e08ed3fa";
             types.RepoDigests := ["alpine@sha256:1072e499f3f6"];
             types.RepoTags := ["alpine:3.6"; "alpine:latest"];
             types.SharedSize := (-1); types.Size := 3966200;
             types.VirtualSize := 3966200 |} ], None);
     client.ImageTag := fun _ _ => None;
     client.ImageRemove := fun _ _ => None |}.

(** An engine that cannot be reached: every call fails, and no response
    body comes back. *)
Definition engine_down : client.Client :=
  {| client.ImageBuild := fun _ _ =>
       ({| types.Body := None; types.OSType := "" |}, Some connection_refused);
     client.ImagePull := fun _ _ => (None, Some connection_refused);
     client.ImagePush := fun _ _ => (None, Some connection_refused);
     client.ImageList := fun _ => ([], Some connection_refused);
     client.ImageTag := fun _ _ => Some connection_refused;
     client.ImageRemove := fun _ _ => Some connection_refused |}.

(** An engine behind that proxy. *)
Definition engine_garbled : client.Client :=
  {| client.ImageBuild := client.ImageBuild engine_up;
     client.ImagePull := fun _ _ => (Some garbled_body, None);
     client.ImagePush := fun _ _ => (Some garbled_body, None);
     client.ImageList := client.ImageList engine_up;
     client.ImageTag := client.ImageTag engine_up;
     client.ImageRemove := client.ImageRemove engine_up |}.

(** [base64.URLEncoding.EncodeToString]: the URL-safe alphabet of RFC 4648,
    with padding. *)
Definition base64_alphabet : string :=
  "ABCDEFGHIJKLMNOPQRSTUVWXYZabcdefghijklmnopqrstuvwxyz0123456789-_".

Definition base64_digit (n : N) : ascii :=
  match String.get (N.to_nat n) base64_alphabet with
  | Some c => c
  | None => "="%char
  end.

Fixpoint sample_EncodeToString (src : list Byte.byte) : string :=
  match src with
  | [] => ""
  | [a] =>
      let x := Byte.to_N a in
      String (base64_digit (x / 4))
        (String (base64_digit ((x mod 4) * 16)) "==")
  | [a; b] =>
      let x := Byte.to_N a in
      let y := Byte.to_N b in
      String (base64_digit (x / 4))
        (String (base64_digit ((x mod 4) * 16 + y / 16))
           (String (base64_digit ((y mod 16) * 4)) "="))
  | a :: b :: c :: rest =>
      let x := Byte.to_N a in
      let y := Byte.to_N b in
      let z := Byte.to_N c in
      String (base64_digit (x / 4))
        (String (base64_digit ((x mod 4) * 16 + y / 16))
           (String (base64_digit ((y mod 16) * 4 + z / 64))
              (String (base64_digit (z mod 64)) (sample_EncodeToString rest))))
  end%N.

(** [json.Marshal] on an [AuthConfig] whose fields need no escaping; both
    fields are tagged [omitempty]. *)
Definition quoted (s : string) : string :=
  String (ascii_of_nat 34) (s ++ String (ascii_of_nat 34) "").

Definition sample_Marshal (auth : types.AuthConfig)
  : list Byte.byte * option error :=
  let field name value :=
    if String.eqb value "" then [] else [(quoted name ++ ":" ++ quoted value)%string] in
  (list_byte_of_string
     ("{" ++ String.concat ","
               (field "username" (types.Username auth)
                ++ field "password" (types.Password auth)) ++ "}"),
   None).

Definition sample_NewClient (engine : client.Client) (cfg : Configs)
  : option dockerCmd * option error :=
  NewClient (fun _ _ => inl engine) sample_Marshal sample_EncodeToString cfg.

Definition sample_Configs : Configs :=
  {| Host := defaultDockerHost; Registry := "127.0.0.1";
     User := "u"; Passwd := "p" |}.

(** The value [NewClient] builds for [sample_Configs] over an engine. *)
Definition sample_docker (engine : client.Client) : dockerCmd :=
  {| cli := engine;
     dockerHost := defaultDockerHost;
     registry := "127.0.0.1";
     registryAuthString := "eyJ1c2VybmFtZSI6InUiLCJwYXNzd29yZCI6InAifQ==";
     registryAuthMap :=
       {[ "127.0.0.1" := {| types.Username := "u"; types.Password := "p" |} ]};
     noCache := true;
     forceRm := true;
     pull := true |}.

Definition sample_args : gmap string (option string) :=
  {[ "VERSION" := Some "1.2"; "HTTP_PROXY" := None ]}.

(** * The tests (docker_test.go)

    The three test functions are the callers of the package.  A test makes
    the calls of the package, removes a directory, and logs lines; it ends
    with a verdict, or it panics.  [t.Fatal] ends the test function on the
    spot (the deferred calls still run), so it stands where a [return]
    would. *)

Inductive TestEvent : Type :=
  | Call (ev : Event)
  | RemoveAll_ (path : string)
  | Logf_ (image : ImageSummary).

Inductive Verdict : Type :=
  | PASS
  | FATAL (msg : string) (err : error).

Definition T (A : Type) : Type := (list TestEvent * Outcome A)%type.

Definition tret {A} (a : A) : T A := ([], Returned a).

Definition tbind {A B} (m : T A) (f : A -> T B) : T B :=
  match m with
  | (l, Returned a) => let '(l', r) := f a in (l ++ l', r)
  | (l, Panicked) => (l, Panicked)
  end.

Definition temit (e : TestEvent) : T unit := ([e], Returned tt).

(** [defer d; body] in a test: [d] runs when [body] is over, also when it
    panicked. *)
Definition tdefer {A} (d : T unit) (body : T A) : T A :=
  let '(l, r) := body in
  let '(l', r') := d in
  (l ++ l', match r' with Returned _ => r | Panicked => Panicked end).

Notation "'let+' x := c1 'in' c2" := (tbind c1 (fun x => c2))
  (at level 10, x pattern, c1 at level 100, c2 at level 200).

(** A method call [docker.M(...)] on the [Docker] interface value that
    [NewClient] returned: it panics on the nil interface, and otherwise
    runs the method of [*dockerCmd]. *)
Definition method {A} (docker : option dockerCmd) (m : dockerCmd -> M A) : T A :=
  match docker with
  | None => ([], Panicked)
  | Some d => (List.map Call (log_of (m d)), outcome_of (m d))
  end.

(** [strconv.Itoa] on a number that is not negative. *)
Definition strconv_Itoa (n : nat) : string := NilZero.string_of_uint (Nat.to_uint n).

(** Lines 12-14. *)
Definition cloneRepo : string := "./docker-build".

(** [for _, image := range list { t.Logf("%+v", image) }] *)
Fixpoint log_images (list : list ImageSummary) : T unit :=
  match list with
  | [] => tret tt
  | image :: list' => let+ _ := temit (Logf_ image) in log_images list'
  end.

Section Tests.

Variable client_NewClient : string -> string -> client.Client + error.
Variable json_Marshal : types.AuthConfig -> list Byte.byte * option error.
Variable base64_URLEncoding_EncodeToString : list Byte.byte -> string.
Variable fs : FileSystem.

(** Lines 16-35; [os.RemoveAll] is deferred first of all, and its error is
    dropped. *)
Definition TestDockerbuild : T Verdict :=
  let repoLocalPath := cloneRepo in
  tdefer (temit (RemoveAll_ repoLocalPath)) (
    let localRegistry := "127.0.0.1" in
    let '(docker, _) :=
      NewClient client_NewClient json_Marshal base64_URLEncoding_EncodeToString
        {| Host := "tcp://127.0.0.1:2376"; Registry := localRegistry;
           User := ""; Passwd := "" |} in
    let+ err :=
      method docker (fun d =>
        Build fs d repoLocalPath (localRegistry ++ "/public/build-test:master") ∅) in
    match err with
    | Some e => tret (FATAL "build docker image failed:" e)
    | None =>
    let+ err :=
      method docker (fun d => Push d (localRegistry ++ "/public/build-test:master")) in
    match err with
    | Some e => tret (FATAL "push docker image failed:" e)
    | None => tret PASS
    end
    end).

(** Lines 36-48. *)
Definition TestDockerList : T Verdict :=
  let '(docker, _) :=
    NewClient client_NewClient json_Marshal base64_URLEncoding_EncodeToString
      {| Host := "tcp://127.0.0.1:2376"; Registry := ""; User := ""; Passwd := "" |} in
  let+ (list, err) := method docker (fun d => List d ∅) in
  match err with
  | Some e => tret (FATAL "list docker images failed:" e)
  | None =>
  let+ _ := log_images list in
  tret PASS
  end.

(** Lines 49-72; [intn] is what [rand.Intn(1024)] yields after the seeding
    with the time of the day. *)
Definition TestDockerTag (intn : nat) : T Verdict :=
  let '(docker, _) :=
    NewClient client_NewClient json_Marshal base64_URLEncoding_EncodeToString
      {| Host := "tcp://127.0.0.1:2376"; Registry := ""; User := ""; Passwd := "" |} in
  let newRepo := "newRepoHost.com/ubuntu" in
  let newTag := strconv_Itoa intn in
  let+ err := method docker (fun d => Tag d "ubuntu:16.04" (newRepo ++ ":" ++ newTag)) in
  match err with
  | Some e => tret (FATAL "tag docker images failed:" e)
  | None =>
  let+ (list, err) := method docker (fun d => List d ∅) in
  match err with
  | Some e => tret (FATAL "list docker images failed:" e)
  | None =>
  let+ _ := log_images list in
  let+ err := method docker (fun d => Rmi d (newRepo ++ ":" ++ newTag)) in
  match err with
  | Some e => tret (FATAL "remove docker images failed:" e)
  | None => tret PASS
  end
  end
  end.

End Tests.

(** * Vocabulary and samples of the further properties *)

(** The filesystem [fs] with another answer of [fileutils.Matches], and
    with another answer of [os.Lstat]. *)
Definition with_Matches (matches : string -> list string -> bool * option error)
    (fs : FileSystem) : FileSystem :=
  {| filepath_Join := filepath_Join fs;
     path_Join := path_Join fs;
     filepath_Abs := filepath_Abs fs;
     filepath_Rel := filepath_Rel fs;
     os_Lstat := os_Lstat fs;
     os_Open := os_Open fs;
     archive_CanonicalTarNameForPath := archive_CanonicalTarNameForPath fs;
     dockerignore_ReadAll := dockerignore_ReadAll fs;
     fileutils_Matches := matches;
     builder_ValidateContextDirectory := builder_ValidateContextDirectory fs;
     archive_TarWithOptions := archive_TarWithOptions fs |}.

Definition with_Lstat (lstat : string -> option error) (fs : FileSystem) : FileSystem :=
  {| filepath_Join := filepath_Join fs;
     path_Join := path_Join fs;
     filepath_Abs := filepath_Abs fs;
     filepath_Rel := filepath_Rel fs;
     os_Lstat := lstat;
     os_Open := os_Open fs;
     archive_CanonicalTarNameForPath := archive_CanonicalTarNameForPath fs;
     dockerignore_ReadAll := dockerignore_ReadAll fs;
     fileutils_Matches := fileutils_Matches fs;
     builder_ValidateContextDirectory := builder_ValidateContextDirectory fs;
     archive_TarWithOptions := archive_TarWithOptions fs |}.

Definition is_TarWithOptions (ev : Event) : bool :=
  match ev with
  | TarWithOptions_ _ _ => true
  | _ => false
  end.

(** A directory whose entries cannot be examined: [os.Lstat] fails, but
    not with a not-exist error. *)
Definition lstat_denied (name : string) : error :=
  SysError ("lstat " ++ name ++ ": permission denied") false.

Definition fs_unreadable : FileSystem :=
  with_Lstat (fun name => Some (lstat_denied name)) fs_plain.

(** A matcher that answers as the one of [fs_ignoring] does and
    complains about the patterns each time. *)
Definition complaining_Matches (name : string) (excludes : list string)
  : bool * option error :=
  (fst (fileutils_Matches fs_ignoring name excludes),
   Some (LibError "syntax error in pattern")).

(** An engine that hands over a stream together with an error, and one
    that hands over neither. *)
Definition engine_stream_and_error : client.Client :=
  {| client.ImageBuild := client.ImageBuild engine_down;
     client.ImagePull := fun _ _ => (Some clean_body, Some connection_refused);
     client.ImagePush := fun _ _ => (Some clean_body, Some connection_refused);
     client.ImageList := client.ImageList engine_down;
     client.ImageTag := client.ImageTag engine_down;
     client.ImageRemove := client.ImageRemove engine_down |}.

(** * Properties *)

(** ** The monad's equations *)

Lemma bind_emit {B} (ev : Event) (k : M B) :
  bind (emit ev) (fun _ => k) = (ev :: log_of k, outcome_of k).
Proof. unfold bind, emit. destruct k. reflexivity. Qed.

Lemma bind_call {A B} (ev : Event) (a : A) (f : A -> M B) :
  bind (run emit ev then ret a) f = (ev :: log_of (f a), outcome_of (f a)).
Proof. unfold bind, emit, ret. destruct (f a). reflexivity. Qed.

Lemma defer_Close {A} (rc : ReadCloser) (body : M A) :
  defer (Close rc) body = (log_of body ++ [Close_ (handle rc)], outcome_of body).
Proof. unfold defer, Close, emit. destruct body. reflexivity. Qed.

Lemma engine_calls_app (l1 l2 : list Event) :
  engine_calls (l1 ++ l2) = (engine_calls l1 + engine_calls l2)%nat.
Proof. unfold engine_calls. rewrite List.filter_app, List.length_app. reflexivity. Qed.

(** ** detectErrorMessage *)

Lemma embedded_error_code (jm : jsonmessage.JSONMessage) :
  embedded_error jm =
  match jsonmessage.Error jm with
  | Some je => Some (JSONErrorValue je)
  | None =>
      if (0 <? String.length (jsonmessage.ErrorMessage jm))%nat
      then Some (errors_New (jsonmessage.ErrorMessage jm))
      else None
  end.
Proof.
  unfold embedded_error. destruct (jsonmessage.Error jm); [reflexivity|].
  destruct (jsonmessage.ErrorMessage jm); reflexivity.
Qed.

(** One round of the loop, by what the decoder yields. *)
Lemma detectLoop_step (h : nat) (rest : list DecodeStep) :
  detectLoop h rest =
  match rest with
  | [] => ([Decode_ h], Returned None)
  | Fail err :: _ =>
      ([Decode_ h], Returned (if decide (err = io_EOF) then None else Some err))
  | Msg jm :: rest' =>
      match embedded_error jm with
      | Some e => ([Decode_ h], Returned (Some e))
      | None => (Decode_ h :: log_of (detectLoop h rest'),
                 outcome_of (detectLoop h rest'))
      end
  end.
Proof.
  destruct rest as [|[jm|err] rest']; cbn [detectLoop].
  - reflexivity.
  - rewrite embedded_error_code.
    destruct (jsonmessage.Error jm); [reflexivity|].
    destruct (0 <? _)%nat; [reflexivity|].
    rewrite bind_emit. reflexivity.
  - destruct (decide (err = io_EOF)); reflexivity.
Qed.

(** The loop always comes to an end with a result, after at most one round
    per decoded step and one more. *)
Lemma detectLoop_total (h : nat) (rest : list DecodeStep) :
  ∃ n res, detectLoop h rest = (replicate (S n) (Decode_ h), Returned res)
           ∧ (n ≤ List.length rest)%nat.
Proof.
  induction rest as [|[jm|err] rest' IH]; rewrite detectLoop_step.
  - exists 0, None. split; [reflexivity | cbn; lia].
  - destruct (embedded_error jm) as [e|].
    + exists 0, (Some e). split; [reflexivity | cbn; lia].
    + destruct IH as (n & res & -> & Hn).
      exists (S n), res. split; [reflexivity | cbn; lia].
  - eexists 0, _. split; [reflexivity | cbn; lia].
Qed.

(** A clean prefix is skipped. *)
Lemma detectLoop_skip (h : nat) (pre rest : list DecodeStep) :
  Forall clean pre ->
  detectLoop h (pre ++ rest) =
  (replicate (List.length pre) (Decode_ h) ++ log_of (detectLoop h rest),
   outcome_of (detectLoop h rest)).
Proof.
  induction 1 as [|step pre Hstep _ IH]; cbn [app List.length replicate].
  - destruct (detectLoop h rest); reflexivity.
  - rewrite detectLoop_step. destruct step as [jm|err]; [|destruct Hstep].
    cbn in Hstep. rewrite Hstep, IH. reflexivity.
Qed.

Lemma detectLoop_nil_iff (h : nat) (s : list DecodeStep) :
  outcome_of (detectLoop h s) = Returned None <-> ends_clean s.
Proof.
  split.
  - induction s as [|[jm|err] s IH]; rewrite detectLoop_step.
    + intros _. exists [], []. repeat split. constructor.
    + destruct (embedded_error jm) as [e|] eqn:He; [discriminate|].
      intros H. destruct (IH H) as (pre & rest & -> & Hpre & Hend).
      exists (Msg jm :: pre), rest. repeat split; [|exact Hend].
      constructor; [exact He | exact Hpre].
    + destruct (decide (err = io_EOF)) as [->|Hne]; [|discriminate].
      intros _. exists [], (Fail io_EOF :: s). repeat split. constructor.
  - intros (pre & rest & -> & Hpre & Hend).
    rewrite detectLoop_skip by exact Hpre. cbn [outcome_of snd].
    rewrite detectLoop_step. destruct rest as [|[jm|err] rest].
    + reflexivity.
    + destruct Hend.
    + cbn in Hend. subst err. reflexivity.
Qed.

(** C1.  On every response stream [detectErrorMessage] ends with a result;
    it decodes the messages in order, one [Decode] each, and returns the
    first embedded error it meets (the [Error] object of the message, or
    else an error made of its non-empty [ErrorMessage]); and it returns nil
    exactly when decoding reaches the end of the stream and no message on
    the way carries an embedded error. *)
Theorem detectErrorMessage_first_embedded_error (rc : ReadCloser) :
  (∃ res, outcome_of (detectErrorMessage (Some rc)) = Returned res) ∧
  (∀ pre jm rest e,
     stream rc = pre ++ Msg jm :: rest ->
     Forall clean pre ->
     embedded_error jm = Some e ->
     detectErrorMessage (Some rc) =
     (replicate (S (List.length pre)) (Decode_ (handle rc)), Returned (Some e))) ∧
  (outcome_of (detectErrorMessage (Some rc)) = Returned None
   <-> ends_clean (stream rc)).
Proof.
  cbn [detectErrorMessage]. split; [|split].
  - destruct (detectLoop_total (handle rc) (stream rc)) as (n & res & -> & _).
    exists res. reflexivity.
  - intros pre jm rest e -> Hpre He.
    rewrite detectLoop_skip by exact Hpre.
    rewrite detectLoop_step, He. cbn [log_of outcome_of fst snd].
    f_equal. change (S (List.length pre)) with (1 + List.length pre)%nat.
    rewrite Nat.add_comm, replicate_add. reflexivity.
  - apply detectLoop_nil_iff.
Qed.

Lemma detectErrorMessage_first_embedded_error_witness :
  stream failing_body
    = [Msg progress_message] ++ Msg failure_message :: [Msg detailed_failure_message]
  ∧ Forall clean [Msg progress_message]
  ∧ embedded_error failure_message = Some (errors_New "manifest unknown")
  ∧ detectErrorMessage (Some failing_body)
    = ([Decode_ 7; Decode_ 7], Returned (Some (errors_New "manifest unknown"))).
Proof.
  assert (Hpre : Forall clean [Msg progress_message]) by (repeat constructor).
  split; [reflexivity|]. split; [exact Hpre|]. split; [reflexivity|].
  exact (proj1 (proj2 (detectErrorMessage_first_embedded_error failing_body))
           [Msg progress_message] failure_message [Msg detailed_failure_message]
           (errors_New "manifest unknown") eq_refl Hpre eq_refl).
Defined.

(** ** What follows an engine call in Pull and Push *)

Lemma after_call_eq (resp : option ReadCloser) (err : option error) :
  after_call resp err =
  match err, resp with
  | Some e, _ => ([], Returned (Some e))
  | None, None => ([], Panicked)
  | None, Some rc => detectLoop (handle rc) (stream rc)
  end.
Proof.
  destruct err as [e|]; [reflexivity|]. destruct resp as [rc|]; [|reflexivity].
  cbn [after_call detectErrorMessage].
  destruct (detectLoop_total (handle rc) (stream rc)) as (n & res & -> & _).
  destruct res; cbn; rewrite app_nil_r; reflexivity.
Qed.

Lemma Pull_eq (docker : dockerCmd) (imagePath : string) :
  let options := {| types.pull_All := false; types.pull_RegistryAuth := "" |} in
  let '(resp, err) := client.ImagePull (cli docker) imagePath options in
  Pull docker imagePath =
  (ImagePull_ imagePath options :: log_of (after_call resp err)
     ++ match resp with Some rc => [Close_ (handle rc)] | None => [] end,
   outcome_of (after_call resp err)).
Proof.
  cbn zeta. unfold Pull, call_ImagePull. rewrite bind_call.
  destruct (client.ImagePull _ _ _) as [resp err].
  change (match err with
          | Some e => ret (Some e)
          | None => let* err0 := detectErrorMessage resp in
                    match err0 with Some e => ret (Some e) | None => ret None end
          end) with (after_call resp err).
  destruct resp as [rc|]; cbn [deferCloseIfNotNil].
  - rewrite defer_Close. reflexivity.
  - rewrite app_nil_r. destruct (after_call None err). reflexivity.
Qed.

Lemma Push_eq (docker : dockerCmd) (imagePath : string) :
  let options := {| types.push_RegistryAuth := registryAuthString docker |} in
  let '(resp, err) := client.ImagePush (cli docker) imagePath options in
  Push docker imagePath =
  (ImagePush_ imagePath options :: log_of (after_call resp err)
     ++ match resp with Some rc => [Close_ (handle rc)] | None => [] end,
   outcome_of (after_call resp err)).
Proof.
  cbn zeta. unfold Push, call_ImagePush. rewrite bind_call.
  destruct (client.ImagePush _ _ _) as [resp err].
  change (match err with
          | Some e => ret (Some e)
          | None => let* err0 := detectErrorMessage resp in
                    match err0 with Some e => ret (Some e) | None => ret None end
          end) with (after_call resp err).
  destruct resp as [rc|]; cbn [deferCloseIfNotNil].
  - rewrite defer_Close. reflexivity.
  - rewrite app_nil_r. destruct (after_call None err). reflexivity.
Qed.

(** ** CreateTar talks to the filesystem only *)

Create HintDb local_db.

Lemma local_ret {A} (a : A) : local (ret a).
Proof. exists [], a. split; reflexivity. Qed.

Lemma local_bind {A B} (m : M A) (f : A -> M B) :
  local m -> (∀ a, local (f a)) -> local (bind m f).
Proof.
  intros (l & a & -> & Hl) Hf. destruct (Hf a) as (l' & b & Hfa & Hl').
  exists (l ++ l'), b. unfold bind. rewrite Hfa. split; [reflexivity|].
  rewrite forallb_app, Hl, Hl'. reflexivity.
Qed.

Lemma local_Lstat fs name : local (Lstat fs name).
Proof. eexists _, _. split; reflexivity. Qed.

Lemma local_Open fs name : local (Open fs name).
Proof. eexists _, _. split; reflexivity. Qed.

Lemma local_ReadAll fs file : local (ReadAll fs file).
Proof. eexists _, _. split; reflexivity. Qed.

Lemma local_ValidateContextDirectory fs dir excludes :
  local (ValidateContextDirectory fs dir excludes).
Proof. eexists _, _. split; reflexivity. Qed.

Lemma local_TarWithOptions fs dir options : local (TarWithOptions fs dir options).
Proof. eexists _, _. split; reflexivity. Qed.

#[local] Hint Resolve local_ret local_Lstat local_Open local_ReadAll
  local_ValidateContextDirectory local_TarWithOptions : local_db.

Ltac local_step :=
  lazymatch goal with
  | |- local (bind _ _) => apply local_bind; [|intros ?]
  | |- local (match ?x with _ => _ end) => destruct x
  | |- local (if ?b then _ else _) => destruct b
  | |- local _ => solve [auto with local_db]
  end.

Lemma local_CreateTar_default fs abs dockerfile name filename :
  local (CreateTar_default fs abs dockerfile name filename).
Proof. unfold CreateTar_default. repeat local_step. Qed.

Lemma local_CreateTar_locate fs contextDirectory dockerfile :
  local (CreateTar_locate fs contextDirectory dockerfile).
Proof.
  unfold CreateTar_locate. pose proof local_CreateTar_default.
  repeat first [local_step | solve [auto]].
Qed.

Lemma local_CreateTar_excludes fs contextDirectory :
  local (CreateTar_excludes fs contextDirectory).
Proof. unfold CreateTar_excludes. repeat local_step. Qed.

Lemma local_CreateTar_archive fs contextDirectory dockerfileName :
  local (CreateTar_archive fs contextDirectory dockerfileName).
Proof.
  unfold CreateTar_archive. pose proof local_CreateTar_excludes.
  repeat first [local_step | solve [auto]].
Qed.

Lemma local_CreateTar fs contextDirectory dockerfile :
  local (CreateTar fs contextDirectory dockerfile).
Proof.
  unfold CreateTar.
  pose proof local_CreateTar_locate. pose proof local_CreateTar_archive.
  repeat first [local_step | solve [auto]].
Qed.

Lemma local_no_engine_call (l : list Event) :
  forallb is_fs_call l = true -> engine_calls l = 0%nat.
Proof.
  unfold engine_calls. induction l as [|ev l IH]; [reflexivity|].
  cbn [forallb List.filter]. intros [Hev Hl]%andb_prop.
  destruct ev; try discriminate Hev; exact (IH Hl).
Qed.

(** ** Build, step by step *)

Lemma Build_eq fs docker contextDirectory imagePath args :
  ∃ l created,
    CreateTar fs contextDirectory defaultDockerfile = (l, Returned created)
    ∧ forallb is_fs_call l = true
    ∧ Build fs docker contextDirectory imagePath args
      = Build_after_CreateTar docker imagePath args l created.
Proof.
  destruct (local_CreateTar fs contextDirectory defaultDockerfile)
    as (l & created & Heq & Hl).
  exists l, created. split; [exact Heq|]. split; [exact Hl|].
  unfold Build. rewrite Heq. unfold bind at 1.
  destruct created as [[buildCtx|] [e|]]; cbn [Build_after_CreateTar deferClose];
    try (cbn; rewrite ?app_nil_r; reflexivity).
  rewrite defer_Close. unfold call_ImageBuild. rewrite bind_call.
  fold (build_options docker imagePath args).
  destruct (client.ImageBuild _ _ _) as [response err].
  destruct (types.Body response) as [body|] eqn:Hbody; cbn [deferClose].
  - rewrite defer_Close.
    change (match err with
            | Some e => ret (Some e)
            | None => let* err0 := detectErrorMessage (Some body) in
                      match err0 with Some e => ret (Some e) | None => ret None end
            end) with (after_call (Some body) err).
    cbn [log_of outcome_of fst snd]. f_equal.
    rewrite <- app_comm_cons, <- app_assoc. reflexivity.
  - reflexivity.
Qed.

(** ** The sample world *)

Example sample_NewClient_up :
  sample_NewClient engine_up sample_Configs = (Some (sample_docker engine_up), None).
Proof. reflexivity. Qed.

(** ** Errors of the engine calls *)

Lemma Pull_error docker imagePath resp e :
  client.ImagePull (cli docker) imagePath pull_options = (resp, Some e) ->
  outcome_of (Pull docker imagePath) = Returned (Some e).
Proof.
  intros H. pose proof (Pull_eq docker imagePath) as Heq. cbn zeta in Heq.
  fold pull_options in Heq. rewrite H in Heq. rewrite Heq, after_call_eq.
  reflexivity.
Qed.

Lemma Push_error docker imagePath resp e :
  client.ImagePush (cli docker) imagePath (push_options docker) = (resp, Some e) ->
  outcome_of (Push docker imagePath) = Returned (Some e).
Proof.
  intros H. pose proof (Push_eq docker imagePath) as Heq. cbn zeta in Heq.
  fold (push_options docker) in Heq. rewrite H in Heq. rewrite Heq, after_call_eq.
  reflexivity.
Qed.

Lemma List_eq docker filter :
  List docker filter =
  ([ImageList_ {| types.Filters := list_filters filter |}],
   Returned
     match client.ImageList (cli docker) {| types.Filters := list_filters filter |} with
     | (_, Some e) => ([], Some e)
     | (imageSummaryList, None) =>
         (foldl (fun acc summary =>
            acc ++ [ {| Containers := types.Containers summary;
                        Created := types.Created summary;
                        ID := types.ID summary;
                        Labels := types.Labels summary;
                        ParentID := types.ParentID summary;
                        RepoDigests := types.RepoDigests summary;
                        RepoTags := types.RepoTags summary;
                        SharedSize := types.SharedSize summary;
                        Size := types.Size summary;
                        VirtualSize := types.VirtualSize summary |} ])
            [] imageSummaryList, None)
     end).
Proof.
  unfold List, call_ImageList. rewrite bind_call. fold (list_filters filter).
  destruct (client.ImageList _ _) as [l [e|]]; reflexivity.
Qed.

Lemma Tag_eq docker imagePath newImagePath :
  Tag docker imagePath newImagePath =
  ([ImageTag_ imagePath newImagePath],
   Returned (client.ImageTag (cli docker) imagePath newImagePath)).
Proof.
  unfold Tag, call_ImageTag. rewrite bind_call.
  destruct (client.ImageTag _ _ _); reflexivity.
Qed.

Lemma Rmi_eq docker imagePath :
  Rmi docker imagePath =
  ([ImageRemove_ imagePath remove_options],
   Returned (client.ImageRemove (cli docker) imagePath remove_options)).
Proof.
  unfold Rmi, call_ImageRemove. rewrite bind_call. fold remove_options.
  destruct (client.ImageRemove _ _ _); reflexivity.
Qed.

(** ** CreateTar, stage by stage *)

Lemma CreateTar_default_eq fs contextDirectory abs dockerfile :
  CreateTar_default fs abs dockerfile
    (filepath_Join fs contextDirectory dockerfile)
    (filepath_Join fs contextDirectory dockerfile)
  = (probed_Dockerfiles fs abs dockerfile,
     Returned (chosen_Dockerfile fs contextDirectory abs dockerfile)).
Proof.
  unfold CreateTar_default, chosen_Dockerfile, probed_Dockerfiles, Lstat.
  destruct (decide (dockerfile = "")); [|reflexivity].
  rewrite bind_call.
  change (strings_ToLower defaultDockerfile) with "dockerfile".
  change defaultDockerfile with "Dockerfile".
  destruct (os_IsNotExist (os_Lstat fs (filepath_Join fs abs "Dockerfile")));
    [|reflexivity].
  rewrite bind_call.
  destruct (os_Lstat fs (path_Join fs abs "dockerfile")); reflexivity.
Qed.

Lemma CreateTar_locate_eq fs contextDirectory dockerfile :
  CreateTar_locate fs contextDirectory dockerfile =
  match filepath_Abs fs contextDirectory with
  | (_, Some e) => ([], Returned (inr (None, Some e)))
  | (abs, None) =>
      CreateTar_check fs abs
        (chosen_Dockerfile fs contextDirectory abs dockerfile)
        (probed_Dockerfiles fs abs dockerfile)
  end.
Proof.
  unfold CreateTar_locate, CreateTar_check.
  destruct (filepath_Abs fs contextDirectory) as [abs [e|]]; [reflexivity|].
  rewrite CreateTar_default_eq.
  destruct (chosen_Dockerfile fs contextDirectory abs dockerfile) as [name file].
  unfold bind at 1. cbn [fst snd].
  destruct (filepath_Abs fs file) as [filename [e|]];
    [cbn; rewrite app_nil_r; reflexivity|].
  destruct (filepath_Rel fs abs filename) as [rel [e|]];
    [cbn; rewrite app_nil_r; reflexivity|].
  destruct (archive_CanonicalTarNameForPath fs rel) as [canon [e|]];
    [cbn; rewrite app_nil_r; reflexivity|].
  unfold Lstat. rewrite bind_call.
  destruct (os_IsNotExist (os_Lstat fs filename)); reflexivity.
Qed.

Lemma CreateTar_excludes_eq fs contextDirectory :
  let dockerIgnorePath := path_Join fs contextDirectory ".dockerignore" in
  CreateTar_excludes fs contextDirectory =
  match os_Open fs dockerIgnorePath with
  | (_, Some e) =>
      ([Open_ dockerIgnorePath],
       Returned (if os_IsNotExist (Some e) then ([], None) else ([], Some e)))
  | (dockerIgnore, None) =>
      ([Open_ dockerIgnorePath; ReadAll_ dockerIgnore],
       Returned match dockerignore_ReadAll fs dockerIgnore with
                | (_, Some e) => ([], Some e)
                | (excludes, None) => (excludes, None)
                end)
  end.
Proof.
  cbn zeta. unfold CreateTar_excludes, Open, ReadAll. rewrite bind_call.
  destruct (os_Open fs _) as [dockerIgnore [e|]].
  - destruct (os_IsNotExist (Some e)); reflexivity.
  - rewrite bind_call. destruct (dockerignore_ReadAll fs dockerIgnore) as [excludes [e|]];
      reflexivity.
Qed.

Lemma CreateTar_archive_eq fs contextDirectory dockerfileName l excludes err :
  CreateTar_excludes fs contextDirectory = (l, Returned (excludes, err)) ->
  CreateTar_archive fs contextDirectory dockerfileName =
  match err with
  | Some e => (l, Returned (None, Some e))
  | None =>
      (l ++ log_of (CreateTar_send fs contextDirectory dockerfileName excludes),
       outcome_of (CreateTar_send fs contextDirectory dockerfileName excludes))
  end.
Proof.
  intros H. unfold CreateTar_archive, CreateTar_send, tar_options.
  rewrite H. unfold bind at 1.
  destruct err as [e|]; [cbn; rewrite app_nil_r; reflexivity|].
  destruct (fileutils_Matches fs ".dockerignore" excludes) as [keepThem1 e1].
  destruct (fileutils_Matches fs dockerfileName excludes) as [keepThem2 e2].
  unfold ValidateContextDirectory, TarWithOptions. rewrite bind_call.
  destruct (builder_ValidateContextDirectory fs contextDirectory excludes) as [e|];
    [reflexivity|].
  rewrite bind_emit. cbn [fst snd log_of outcome_of ret app].
  destruct (keepThem1 || keepThem2); reflexivity.
Qed.

Lemma CreateTar_eq fs contextDirectory dockerfile l located :
  CreateTar_locate fs contextDirectory dockerfile = (l, Returned located) ->
  CreateTar fs contextDirectory dockerfile =
  match located with
  | inr result => (l, Returned result)
  | inl dockerfileName =>
      (l ++ log_of (CreateTar_archive fs contextDirectory dockerfileName),
       outcome_of (CreateTar_archive fs contextDirectory dockerfileName))
  end.
Proof.
  intros H. unfold CreateTar. rewrite H. unfold bind.
  destruct located as [name|result].
  - destruct (CreateTar_archive fs contextDirectory name). reflexivity.
  - cbn. rewrite app_nil_r. reflexivity.
Qed.

(** C5.  For every context directory, [CreateTar] looks the Dockerfile up
    under the name joined to the context directory and returns the error
    "Cannot locate Dockerfile" and no archive when that file does not
    exist.  For the empty name it falls back to "Dockerfile", and it uses
    the lowercase "dockerfile" exactly when "Dockerfile" is absent and
    "dockerfile" exists. *)
Theorem CreateTar_locates_Dockerfile (fs : FileSystem)
    (contextDirectory dockerfile abs : string)
    (Habs : filepath_Abs fs contextDirectory = (abs, None)) :
  let joined := filepath_Join fs contextDirectory dockerfile in
  let upper := filepath_Join fs abs "Dockerfile" in
  let lower := path_Join fs abs "dockerfile" in
  let chosen := chosen_Dockerfile fs contextDirectory abs dockerfile in
  let probed := probed_Dockerfiles fs abs dockerfile in
  CreateTar_default fs abs dockerfile joined joined = (probed, Returned chosen)
  ∧ (dockerfile ≠ "" -> chosen = (joined, joined) ∧ probed = [])
  ∧ (dockerfile = "" ->
       (chosen = ("dockerfile", lower)
        <-> os_IsNotExist (os_Lstat fs upper) = true ∧ os_Lstat fs lower = None)
       ∧ (chosen ≠ ("dockerfile", lower) -> chosen = ("Dockerfile", upper)))
  ∧ (∀ filename,
       filepath_Abs fs (snd chosen) = (filename, None) ->
       os_IsNotExist (os_Lstat fs filename) = true ->
       (∃ l e, CreateTar fs contextDirectory dockerfile = (l, Returned (None, Some e)))
       ∧ (∀ rel name,
            filepath_Rel fs abs filename = (rel, None) ->
            archive_CanonicalTarNameForPath fs rel = (name, None) ->
            CreateTar fs contextDirectory dockerfile =
            (probed ++ [Lstat_ filename],
             Returned (None, Some (fmt_Errorf
               ("Cannot locate Dockerfile: " ++ fst chosen)))))).
Proof.
  cbn zeta. split; [apply CreateTar_default_eq|]. split; [|split].
  - intros Hne. unfold chosen_Dockerfile, probed_Dockerfiles.
    destruct (decide (dockerfile = "")); [contradiction|]. split; reflexivity.
  - intros ->. unfold chosen_Dockerfile. cbn [decide].
    destruct (decide ("" = "")) as [_|Hne]; [|contradiction].
    destruct (os_IsNotExist (os_Lstat fs (filepath_Join fs abs "Dockerfile")));
      cbn [andb].
    + destruct (os_Lstat fs (path_Join fs abs "dockerfile")) as [e|] eqn:Hlower.
      * rewrite bool_decide_eq_false_2 by discriminate.
        split; [split; [intros [=] | intros [_ [=]]] | reflexivity].
      * rewrite bool_decide_eq_true_2 by reflexivity.
        split; [split; [intros _; split; reflexivity | reflexivity] | contradiction].
    + split; [split; [intros [=] | intros [[=] _]] | reflexivity].
  - intros filename Hfile Habsent.
    pose proof (CreateTar_locate_eq fs contextDirectory dockerfile) as Hloc.
    rewrite Habs in Hloc. unfold CreateTar_check in Hloc. rewrite Hfile in Hloc.
    split.
    + destruct (filepath_Rel fs abs filename) as [rel [e|]];
        [rewrite (CreateTar_eq _ _ _ _ _ Hloc); eauto|].
      destruct (archive_CanonicalTarNameForPath fs rel) as [name [e|]];
        [rewrite (CreateTar_eq _ _ _ _ _ Hloc); eauto|].
      rewrite Habsent in Hloc. rewrite (CreateTar_eq _ _ _ _ _ Hloc). eauto.
    + intros rel name Hrel Hname. rewrite Hrel, Hname, Habsent in Hloc.
      rewrite (CreateTar_eq _ _ _ _ _ Hloc). reflexivity.
Qed.

Lemma CreateTar_locates_Dockerfile_witness :
  filepath_Abs fs_no_Dockerfile "/src/app" = ("/src/app", None)
  ∧ CreateTar fs_no_Dockerfile "/src/app" ""
    = ([Lstat_ "/src/app/Dockerfile"; Lstat_ "/src/app/dockerfile";
        Lstat_ "/src/app/Dockerfile"],
       Returned (None, Some (fmt_Errorf "Cannot locate Dockerfile: Dockerfile")))
  ∧ chosen_Dockerfile fs_lowercase "/src/app" "/src/app" ""
    = ("dockerfile", "/src/app/dockerfile").
Proof.
  split; [reflexivity|]. split.
  - pose proof (CreateTar_locates_Dockerfile fs_no_Dockerfile "/src/app" ""
                  "/src/app" eq_refl) as H.
    cbn zeta in H. destruct H as (_ & _ & _ & H).
    destruct (H "/src/app/Dockerfile" eq_refl eq_refl) as [_ H'].
    exact (H' "Dockerfile" "Dockerfile" eq_refl eq_refl).
  - pose proof (CreateTar_locates_Dockerfile fs_lowercase "/src/app" ""
                  "/src/app" eq_refl) as H.
    cbn zeta in H. destruct H as (_ & _ & H & _).
    destruct (H eq_refl) as [[_ H'] _]. apply H'. split; reflexivity.
Defined.

(** C10.  For every context directory, a missing [.dockerignore] is no
    error: [CreateTar] goes on with an empty exclusion list.  And whenever
    the exclusion patterns match ".dockerignore" or the Dockerfile name,
    both names are added to the include list of the archive. *)
Theorem CreateTar_dockerignore (fs : FileSystem)
    (contextDirectory dockerfile dockerfileName : string) (l : list Event)
    (Hlocated :
       CreateTar_locate fs contextDirectory dockerfile = (l, Returned (inl dockerfileName))) :
  let dockerIgnorePath := path_Join fs contextDirectory ".dockerignore" in
  (∀ file e,
     os_Open fs dockerIgnorePath = (file, Some e) ->
     os_IsNotExist (Some e) = true ->
     CreateTar_excludes fs contextDirectory = ([Open_ dockerIgnorePath], Returned ([], None))
     ∧ (∃ l',
          log_of (CreateTar fs contextDirectory dockerfile)
          = l ++ Open_ dockerIgnorePath
                :: ValidateContextDirectory_ contextDirectory [] :: l')
     ∧ (builder_ValidateContextDirectory fs contextDirectory [] = None ->
        ∃ includes,
          let options :=
            {| archive.Compression_ := archive.Uncompressed;
               archive.ExcludePatterns := [];
               archive.IncludeFiles := includes |} in
          CreateTar fs contextDirectory dockerfile
          = (l ++ [Open_ dockerIgnorePath;
                   ValidateContextDirectory_ contextDirectory [];
                   TarWithOptions_ contextDirectory options],
             Returned (archive_TarWithOptions fs contextDirectory options))))
  ∧ (∀ l' excludes,
       CreateTar_excludes fs contextDirectory = (l', Returned (excludes, None)) ->
       fst (fileutils_Matches fs ".dockerignore" excludes)
         || fst (fileutils_Matches fs dockerfileName excludes) = true ->
       builder_ValidateContextDirectory fs contextDirectory excludes = None ->
       let options :=
         {| archive.Compression_ := archive.Uncompressed;
            archive.ExcludePatterns := excludes;
            archive.IncludeFiles := ["."; ".dockerignore"; dockerfileName] |} in
       CreateTar fs contextDirectory dockerfile
       = (l ++ l' ++ [ValidateContextDirectory_ contextDirectory excludes;
                      TarWithOptions_ contextDirectory options],
          Returned (archive_TarWithOptions fs contextDirectory options))).
Proof.
  cbn zeta. rewrite (CreateTar_eq _ _ _ _ _ Hlocated). split.
  - intros file e Hopen Hmissing.
    pose proof (CreateTar_excludes_eq fs contextDirectory) as Hex. cbn zeta in Hex.
    rewrite Hopen, Hmissing in Hex. split; [exact Hex|].
    rewrite (CreateTar_archive_eq _ _ _ _ _ _ Hex). unfold CreateTar_send.
    destruct (builder_ValidateContextDirectory fs contextDirectory []) as [e'|].
    + split; [exists []; reflexivity | discriminate].
    + split; [eexists; reflexivity|]. intros _. eexists. reflexivity.
  - intros l' excludes Hex Hkeep Hvalid.
    rewrite (CreateTar_archive_eq _ _ _ _ _ _ Hex). unfold CreateTar_send, tar_options.
    rewrite Hvalid, Hkeep. reflexivity.
Qed.

Lemma CreateTar_dockerignore_witness :
  CreateTar_locate fs_ignoring "/src/app" "Dockerfile"
    = ([Lstat_ "/src/app/Dockerfile"], Returned (inl "Dockerfile"))
  ∧ CreateTar fs_ignoring "/src/app" "Dockerfile"
    = ([Lstat_ "/src/app/Dockerfile"] ++ [Open_ "/src/app/.dockerignore"; ReadAll_ (Some 3%nat)]
         ++ [ValidateContextDirectory_ "/src/app" ["Dockerfile"; "node_modules"];
             TarWithOptions_ "/src/app"
               {| archive.Compression_ := archive.Uncompressed;
                  archive.ExcludePatterns := ["Dockerfile"; "node_modules"];
                  archive.IncludeFiles := ["."; ".dockerignore"; "Dockerfile"] |}],
       Returned (Some {| handle := 1; stream := [] |}, None))
  ∧ CreateTar_excludes fs_plain "/src/app"
    = ([Open_ "/src/app/.dockerignore"], Returned ([], None)).
Proof.
  split; [reflexivity|]. split.
  - pose proof (CreateTar_dockerignore fs_ignoring "/src/app" "Dockerfile" "Dockerfile"
                  [Lstat_ "/src/app/Dockerfile"] eq_refl) as H.
    cbn zeta in H. destruct H as [_ H].
    exact (H [Open_ "/src/app/.dockerignore"; ReadAll_ (Some 3%nat)]
             ["Dockerfile"; "node_modules"] eq_refl eq_refl eq_refl).
  - pose proof (CreateTar_dockerignore fs_plain "/src/app" "Dockerfile" "Dockerfile"
                  [Lstat_ "/src/app/Dockerfile"] eq_refl) as H.
    cbn zeta in H. destruct H as [H _].
    exact (proj1 (H None (no_such_file "open" "/src/app/.dockerignore") eq_refl eq_refl)).
Defined.

(** ** The scan after the call *)

Lemma after_call_scan (resp : option ReadCloser) (err : option error) :
  scan_of resp err (log_of (after_call resp err)).
Proof.
  rewrite after_call_eq. destruct err as [e|].
  - exists 0%nat. split; [destruct resp; reflexivity|]. split; [reflexivity|].
    intros rc _. lia.
  - destruct resp as [rc|].
    + destruct (detectLoop_total (handle rc) (stream rc)) as (n & res & -> & Hn).
      exists (S n). split; [reflexivity|]. split; [intros [? [=]]|].
      intros rc' [= <-]. lia.
    + exists 0%nat. split; [reflexivity|]. split; [reflexivity|]. intros rc [=].
Qed.

Lemma scan_log_no_engine_call (resp : option ReadCloser) (n : nat) :
  engine_calls (scan_log resp n) = 0%nat.
Proof.
  destruct resp as [rc|]; [|reflexivity]. cbn [scan_log].
  induction n; [reflexivity | exact IHn].
Qed.

Lemma close_log_no_engine_call (resp : option ReadCloser) :
  engine_calls (close_log resp) = 0%nat.
Proof. destruct resp; reflexivity. Qed.

Lemma after_call_nil_iff (resp : option ReadCloser) (err : option error) :
  outcome_of (after_call resp err) = Returned None
  <-> err = None ∧ ∃ rc, resp = Some rc ∧ ends_clean (stream rc).
Proof.
  rewrite after_call_eq. destruct err as [e|].
  - split; [intros [=] | intros [[=] _]].
  - destruct resp as [rc|].
    + rewrite detectLoop_nil_iff. split.
      * intros H. split; [reflexivity|]. exists rc. split; [reflexivity | exact H].
      * intros [_ (rc' & [= <-] & H)]. exact H.
    + split; [intros [=] | intros [_ (rc & [=] & _)]].
Qed.

Lemma after_call_returns (rc : ReadCloser) (err : option error) :
  ∃ res, outcome_of (after_call (Some rc) err) = Returned res.
Proof.
  rewrite after_call_eq. destruct err as [e|]; [eexists; reflexivity|].
  destruct (detectLoop_total (handle rc) (stream rc)) as (n & res & -> & _).
  eexists. reflexivity.
Qed.

Lemma Pull_log docker imagePath resp err :
  client.ImagePull (cli docker) imagePath pull_options = (resp, err) ->
  Pull docker imagePath =
  (ImagePull_ imagePath pull_options :: log_of (after_call resp err) ++ close_log resp,
   outcome_of (after_call resp err)).
Proof.
  intros H. pose proof (Pull_eq docker imagePath) as Heq. cbn zeta in Heq.
  fold pull_options in Heq. rewrite H in Heq. exact Heq.
Qed.

Lemma Push_log docker imagePath resp err :
  client.ImagePush (cli docker) imagePath (push_options docker) = (resp, err) ->
  Push docker imagePath =
  (ImagePush_ imagePath (push_options docker)
     :: log_of (after_call resp err) ++ close_log resp,
   outcome_of (after_call resp err)).
Proof.
  intros H. pose proof (Push_eq docker imagePath) as Heq. cbn zeta in Heq.
  fold (push_options docker) in Heq. rewrite H in Heq. exact Heq.
Qed.

(** The number of engine calls of [Build], by what [CreateTar] returned. *)
Lemma Build_after_CreateTar_calls docker imagePath args l created :
  forallb is_fs_call l = true ->
  engine_calls (log_of (Build_after_CreateTar docker imagePath args l created))
  = match created with
    | (Some _, None) => 1%nat
    | _ => 0%nat
    end.
Proof.
  intros Hl. apply local_no_engine_call in Hl.
  destruct created as [[buildCtx|] [e|]]; cbn [Build_after_CreateTar log_of fst];
    try exact Hl.
  destruct (client.ImageBuild _ _ _) as [response err].
  destruct (types.Body response) as [body|]; cbn [log_of fst].
  - rewrite engine_calls_app, Hl.
    change (ImageBuild_ ?a ?b :: ?t) with ([ImageBuild_ a b] ++ t).
    rewrite !engine_calls_app.
    destruct (after_call_scan (Some body) err) as (n & -> & _).
    rewrite scan_log_no_engine_call. reflexivity.
  - rewrite engine_calls_app, Hl. reflexivity.
Qed.

(** C3, as stated, fails twice.  On a context directory without a
    Dockerfile [Build] returns the error of [CreateTar] and makes no engine
    call at all.  And when the call succeeds and no message of the stream
    carries an embedded error, [Pull] still returns an error, not nil, if
    decoding the stream fails on the way. *)
Lemma Build_without_Dockerfile_makes_no_engine_call :
  (let m := Build fs_no_Dockerfile (sample_docker engine_up) "/src/app"
              "127.0.0.1/public/build-test:master" ∅ in
   m = ([Lstat_ "/src/app/Dockerfile"],
        Returned (Some (fmt_Errorf "Cannot locate Dockerfile: /src/app/Dockerfile")))
   ∧ engine_calls (log_of m) ≠ 1%nat)
  ∧ (let m := Pull (sample_docker engine_garbled) "ubuntu:16.04" in
     client.ImagePull engine_garbled "ubuntu:16.04" pull_options
       = (Some garbled_body, None)
     ∧ (∀ jm, In (Msg jm) (stream garbled_body) -> embedded_error jm = None)
     ∧ outcome_of m
       = Returned (Some (LibError "invalid character '<' looking for beginning of value"))
     ∧ outcome_of m ≠ Returned None).
Proof.
  split; [split; [reflexivity | discriminate]|]. cbn zeta.
  split; [reflexivity|]. split.
  - intros jm [[= <-]|[[=]|[]]]. reflexivity.
  - split; [reflexivity | discriminate].
Qed.

(** C3, amended.  [Pull] and [Push] make exactly one engine call, first
    of all; [Build] makes exactly one when [CreateTar] yields an archive
    and none otherwise, so no operation calls the engine twice.  What
    follows the call is one linear scan of the returned stream, and none
    when the call failed.  The operation returns nil exactly when the
    call succeeds (for [Build]: the archive was made and the call
    succeeds) and decoding the stream reaches its end with no message that
    carries an embedded error. *)
Theorem one_engine_call_then_scan (fs : FileSystem) (docker : dockerCmd) :
  (∀ imagePath resp err,
     client.ImagePull (cli docker) imagePath pull_options = (resp, err) ->
     let m := Pull docker imagePath in
     engine_calls (log_of m) = 1%nat
     ∧ (∃ scan, log_of m = ImagePull_ imagePath pull_options :: scan ++ close_log resp
                ∧ scan_of resp err scan)
     ∧ (outcome_of m = Returned None
        <-> err = None ∧ ∃ rc, resp = Some rc ∧ ends_clean (stream rc)))
  ∧ (∀ imagePath resp err,
       client.ImagePush (cli docker) imagePath (push_options docker) = (resp, err) ->
       let m := Push docker imagePath in
       engine_calls (log_of m) = 1%nat
       ∧ (∃ scan, log_of m = ImagePush_ imagePath (push_options docker)
                               :: scan ++ close_log resp
                  ∧ scan_of resp err scan)
       ∧ (outcome_of m = Returned None
          <-> err = None ∧ ∃ rc, resp = Some rc ∧ ends_clean (stream rc)))
  ∧ (∀ contextDirectory imagePath args,
       let m := Build fs docker contextDirectory imagePath args in
       ∃ l created,
         CreateTar fs contextDirectory defaultDockerfile = (l, Returned created)
         ∧ engine_calls (log_of m)
           = match created with (Some _, None) => 1%nat | _ => 0%nat end
         ∧ (∀ buildCtx response err body,
              created = (Some buildCtx, None) ->
              client.ImageBuild (cli docker) (Some buildCtx)
                (build_options docker imagePath args) = (response, err) ->
              types.Body response = Some body ->
              ∃ scan,
                log_of m
                = l ++ ImageBuild_ (Some buildCtx) (build_options docker imagePath args)
                         :: scan ++ [Close_ (handle body); Close_ (handle buildCtx)]
                ∧ scan_of (Some body) err scan)
         ∧ (outcome_of m = Returned None
            <-> ∃ buildCtx response body,
                  created = (Some buildCtx, None)
                  ∧ client.ImageBuild (cli docker) (Some buildCtx)
                      (build_options docker imagePath args) = (response, None)
                  ∧ types.Body response = Some body
                  ∧ ends_clean (stream body))).
Proof.
  split; [|split].
  - intros imagePath resp err H. cbn zeta. rewrite (Pull_log _ _ _ _ H).
    cbn [log_of outcome_of fst snd]. split; [|split].
    + destruct (after_call_scan resp err) as (n & -> & _).
      change (ImagePull_ ?a ?b :: ?t) with ([ImagePull_ a b] ++ t).
      rewrite !engine_calls_app, scan_log_no_engine_call, close_log_no_engine_call.
      reflexivity.
    + eexists. split; [reflexivity | apply after_call_scan].
    + apply after_call_nil_iff.
  - intros imagePath resp err H. cbn zeta. rewrite (Push_log _ _ _ _ H).
    cbn [log_of outcome_of fst snd]. split; [|split].
    + destruct (after_call_scan resp err) as (n & -> & _).
      change (ImagePush_ ?a ?b :: ?t) with ([ImagePush_ a b] ++ t).
      rewrite !engine_calls_app, scan_log_no_engine_call, close_log_no_engine_call.
      reflexivity.
    + eexists. split; [reflexivity | apply after_call_scan].
    + apply after_call_nil_iff.
  - intros contextDirectory imagePath args. cbn zeta.
    destruct (Build_eq fs docker contextDirectory imagePath args)
      as (l & created & Hcreate & Hl & ->).
    exists l, created. split; [exact Hcreate|]. split; [|split].
    + apply Build_after_CreateTar_calls, Hl.
    + intros buildCtx response err body -> Hcall Hbody.
      cbn [Build_after_CreateTar]. rewrite Hcall, Hbody. cbn [log_of fst].
      eexists. split; [reflexivity | apply after_call_scan].
    + destruct created as [[buildCtx|] [e|]]; cbn [Build_after_CreateTar outcome_of snd];
        try solve [split; [intros [=] | intros (? & ? & ? & [=] & _)]].
      destruct (client.ImageBuild _ _ _) as [response err] eqn:Hcall.
      destruct (types.Body response) as [body|] eqn:Hbody; cbn [outcome_of snd].
      * rewrite after_call_nil_iff. split.
        -- intros [-> (rc & [= <-] & Hclean)]. exists buildCtx, response, body. auto.
        -- intros (buildCtx' & response' & body' & [= <-] & Hcall' & Hbody' & Hclean).
           rewrite Hcall in Hcall'. injection Hcall' as <- ->.
           split; [reflexivity|]. exists body'. split; [congruence | exact Hclean].
      * split; [intros [=]|].
        intros (buildCtx' & response' & body' & [= <-] & Hcall' & Hbody' & _).
        rewrite Hcall in Hcall'. injection Hcall' as <- _. congruence.
Qed.

Lemma clean_body_ends_clean : ends_clean (stream clean_body).
Proof.
  exists [Msg progress_message; Msg progress_message], [].
  split; [reflexivity|]. split; [repeat constructor | exact I].
Defined.

Lemma one_engine_call_then_scan_witness :
  client.ImagePull (cli (sample_docker engine_up)) "ubuntu:16.04" pull_options
    = (Some clean_body, None)
  ∧ engine_calls (log_of (Pull (sample_docker engine_up) "ubuntu:16.04")) = 1%nat
  ∧ outcome_of (Pull (sample_docker engine_up) "ubuntu:16.04") = Returned None.
Proof.
  split; [reflexivity|].
  pose proof (proj1 (one_engine_call_then_scan fs_plain (sample_docker engine_up))
                "ubuntu:16.04" (Some clean_body) None eq_refl) as H.
  cbn zeta in H. destruct H as (Hcalls & _ & Hnil). split; [exact Hcalls|].
  apply Hnil. split; [reflexivity|]. exists clean_body.
  split; [reflexivity | exact clean_body_ends_clean].
Defined.

(** C4 fails on the code for [Build].  [Pull] and [Push] close the
    response whenever there is one and do not touch a nil one; [Build]
    closes the body when [ImageBuild] hands one over, but it defers the
    [Close] of the body before it looks at the error, so a failed
    [ImageBuild], which comes with a nil body, makes [Build] panic instead
    of returning the error. *)
Theorem Build_panics_when_ImageBuild_fails (fs : FileSystem) (docker : dockerCmd) :
  (∀ imagePath resp err,
     client.ImagePull (cli docker) imagePath pull_options = (resp, err) ->
     (∃ l, log_of (Pull docker imagePath) = l ++ close_log resp)
     ∧ (∀ rc, resp = Some rc ->
          ∃ res, outcome_of (Pull docker imagePath) = Returned res)
     ∧ (resp = None -> is_Some err ->
        Pull docker imagePath = ([ImagePull_ imagePath pull_options], Returned err)))
  ∧ (∀ imagePath resp err,
       client.ImagePush (cli docker) imagePath (push_options docker) = (resp, err) ->
       (∃ l, log_of (Push docker imagePath) = l ++ close_log resp)
       ∧ (∀ rc, resp = Some rc ->
            ∃ res, outcome_of (Push docker imagePath) = Returned res)
       ∧ (resp = None -> is_Some err ->
          Push docker imagePath
          = ([ImagePush_ imagePath (push_options docker)], Returned err)))
  ∧ (∀ contextDirectory imagePath args l buildCtx response err,
       CreateTar fs contextDirectory defaultDockerfile
         = (l, Returned (Some buildCtx, None)) ->
       client.ImageBuild (cli docker) (Some buildCtx)
         (build_options docker imagePath args) = (response, err) ->
       (∀ body, types.Body response = Some body ->
          (∃ l', log_of (Build fs docker contextDirectory imagePath args)
                 = l' ++ [Close_ (handle body); Close_ (handle buildCtx)])
          ∧ ∃ res, outcome_of (Build fs docker contextDirectory imagePath args)
                   = Returned res)
       ∧ (types.Body response = None ->
          Build fs docker contextDirectory imagePath args
          = (l ++ [ImageBuild_ (Some buildCtx) (build_options docker imagePath args);
                   Close_ (handle buildCtx)],
             Panicked))).
Proof.
  split; [|split].
  - intros imagePath resp err H. rewrite (Pull_log _ _ _ _ H). split; [|split].
    + eexists (_ :: _). reflexivity.
    + intros rc ->. apply after_call_returns.
    + intros -> [e ->]. reflexivity.
  - intros imagePath resp err H. rewrite (Push_log _ _ _ _ H). split; [|split].
    + eexists (_ :: _). reflexivity.
    + intros rc ->. apply after_call_returns.
    + intros -> [e ->]. reflexivity.
  - intros contextDirectory imagePath args l buildCtx response err Hcreate Hcall.
    destruct (Build_eq fs docker contextDirectory imagePath args)
      as (l0 & created & Hcreate' & _ & ->).
    rewrite Hcreate in Hcreate'. injection Hcreate' as <- <-.
    cbn [Build_after_CreateTar]. rewrite Hcall. split.
    + intros body ->. cbn [log_of outcome_of fst snd]. split.
      * eexists (l ++ _ :: _). rewrite <- app_assoc, <- app_comm_cons. reflexivity.
      * apply after_call_returns.
    + intros ->. reflexivity.
Qed.

Lemma Build_panics_when_ImageBuild_fails_witness :
  CreateTar fs_plain "/src/app" defaultDockerfile
    = ([Lstat_ "/src/app/Dockerfile"; Open_ "/src/app/.dockerignore";
        ValidateContextDirectory_ "/src/app" [];
        TarWithOptions_ "/src/app"
          {| archive.Compression_ := archive.Uncompressed;
             archive.ExcludePatterns := [];
             archive.IncludeFiles := ["."] |}],
       Returned (Some {| handle := 1; stream := [] |}, None))
  ∧ client.ImageBuild engine_down (Some {| handle := 1; stream := [] |})
      (build_options (sample_docker engine_down)
         "127.0.0.1/public/build-test:master" ∅)
    = ({| types.Body := None; types.OSType := "" |}, Some connection_refused)
  ∧ outcome_of (Build fs_plain (sample_docker engine_down) "/src/app"
                  "127.0.0.1/public/build-test:master" ∅)
    = Panicked.
Proof.
  split; [reflexivity|]. split; [reflexivity|].
  pose proof (proj2 (proj2 (Build_panics_when_ImageBuild_fails fs_plain
                              (sample_docker engine_down)))
                "/src/app" "127.0.0.1/public/build-test:master" ∅ _ _ _ _
                eq_refl eq_refl) as [_ H].
  rewrite (H eq_refl). reflexivity.
Defined.

(** C2, as stated, fails for [CreateTar]: the error that
    [builder.ValidateContextDirectory] returns is not what the caller
    gets; [CreateTar] returns a new error made with [fmt.Errorf]. *)
Lemma CreateTar_replaces_validation_error :
  let m := CreateTar fs_denied "/src/app" "Dockerfile" in
  In (ValidateContextDirectory_ "/src/app" []) (log_of m)
  ∧ builder_ValidateContextDirectory fs_denied "/src/app" [] = Some permission_denied
  ∧ outcome_of m
    = Returned (None, Some (fmt_Errorf
        "Error checking context is accessible: 'can't stat '/src/app/secret''. Please check permissions and try again."))
  ∧ outcome_of m ≠ Returned (None, Some permission_denied).
Proof.
  cbn zeta. split; [do 2 right; left; reflexivity|].
  split; [reflexivity|]. split; [reflexivity|]. discriminate.
Qed.

(** C2, amended.  [Pull], [Push], [List], [Tag] and [Rmi] return the error
    of their engine call unmodified, and [Build] returns an error of
    [CreateTar] unmodified.  [CreateTar] returns unmodified the errors of
    [filepath.Abs], [filepath.Rel], [os.Open] (unless the file does not
    exist), [dockerignore.ReadAll] and [archive.TarWithOptions]; it returns
    a new formatted error, which carries the message of the underlying one,
    for an error of [archive.CanonicalTarNameForPath] and of
    [builder.ValidateContextDirectory], and the new error
    "Cannot locate Dockerfile" when [os.Lstat] reports that the Dockerfile
    does not exist. *)
Theorem errors_returned_unmodified (fs : FileSystem) (docker : dockerCmd) (e : error) :
  (∀ imagePath resp,
     client.ImagePull (cli docker) imagePath pull_options = (resp, Some e) ->
     outcome_of (Pull docker imagePath) = Returned (Some e))
  ∧ (∀ imagePath resp,
       client.ImagePush (cli docker) imagePath (push_options docker) = (resp, Some e) ->
       outcome_of (Push docker imagePath) = Returned (Some e))
  ∧ (∀ filter summaries,
       client.ImageList (cli docker) {| types.Filters := list_filters filter |}
         = (summaries, Some e) ->
       outcome_of (List docker filter) = Returned ([], Some e))
  ∧ (∀ imagePath newImagePath,
       client.ImageTag (cli docker) imagePath newImagePath = Some e ->
       outcome_of (Tag docker imagePath newImagePath) = Returned (Some e))
  ∧ (∀ imagePath,
       client.ImageRemove (cli docker) imagePath remove_options = Some e ->
       outcome_of (Rmi docker imagePath) = Returned (Some e))
  ∧ (∀ contextDirectory imagePath args l buildCtx,
       CreateTar fs contextDirectory defaultDockerfile = (l, Returned (buildCtx, Some e)) ->
       Build fs docker contextDirectory imagePath args = (l, Returned (Some e)))
  ∧ (∀ contextDirectory dockerfile,
       let result := outcome_of (CreateTar fs contextDirectory dockerfile) in
       (∀ abs, filepath_Abs fs contextDirectory = (abs, Some e) ->
               result = Returned (None, Some e))
       ∧ (∀ abs, filepath_Abs fs contextDirectory = (abs, None) ->
            let chosen := chosen_Dockerfile fs contextDirectory abs dockerfile in
            (∀ filename, filepath_Abs fs (snd chosen) = (filename, Some e) ->
                         result = Returned (None, Some e))
            ∧ (∀ filename rel,
                 filepath_Abs fs (snd chosen) = (filename, None) ->
                 filepath_Rel fs abs filename = (rel, Some e) ->
                 result = Returned (None, Some e))
            ∧ (∀ filename rel name,
                 filepath_Abs fs (snd chosen) = (filename, None) ->
                 filepath_Rel fs abs filename = (rel, None) ->
                 archive_CanonicalTarNameForPath fs rel = (name, Some e) ->
                 result = Returned (None, Some (fmt_Errorf
                   ("Cannot canonicalize dockerfile path " ++ name ++ ": "
                      ++ Error_method e))))
            ∧ (∀ filename rel name,
                 filepath_Abs fs (snd chosen) = (filename, None) ->
                 filepath_Rel fs abs filename = (rel, None) ->
                 archive_CanonicalTarNameForPath fs rel = (name, None) ->
                 os_Lstat fs filename = Some e ->
                 os_IsNotExist (Some e) = true ->
                 result = Returned (None, Some (fmt_Errorf
                   ("Cannot locate Dockerfile: " ++ fst chosen)))))
       ∧ (∀ l dockerfileName,
            CreateTar_locate fs contextDirectory dockerfile
              = (l, Returned (inl dockerfileName)) ->
            let dockerIgnorePath := path_Join fs contextDirectory ".dockerignore" in
            (∀ file, os_Open fs dockerIgnorePath = (file, Some e) ->
                     os_IsNotExist (Some e) = false ->
                     result = Returned (None, Some e))
            ∧ (∀ file excludes,
                 os_Open fs dockerIgnorePath = (file, None) ->
                 dockerignore_ReadAll fs file = (excludes, Some e) ->
                 result = Returned (None, Some e))
            ∧ (∀ l' excludes,
                 CreateTar_excludes fs contextDirectory = (l', Returned (excludes, None)) ->
                 (builder_ValidateContextDirectory fs contextDirectory excludes = Some e ->
                  result = Returned (None, Some (fmt_Errorf
                    ("Error checking context is accessible: '" ++ Error_method e
                       ++ "'. Please check permissions and try again."))))
                 ∧ (builder_ValidateContextDirectory fs contextDirectory excludes = None ->
                    result = Returned (archive_TarWithOptions fs contextDirectory
                                         (tar_options fs dockerfileName excludes)))))).
Proof.
  split; [intros ? ?; apply Pull_error|].
  split; [intros ? ?; apply Push_error|].
  split; [intros filter summaries H; rewrite List_eq, H; reflexivity|].
  split; [intros ? ? H; rewrite Tag_eq, H; reflexivity|].
  split; [intros ? H; rewrite Rmi_eq, H; reflexivity|].
  split.
  { intros contextDirectory imagePath args l buildCtx Hcreate.
    destruct (Build_eq fs docker contextDirectory imagePath args)
      as (l0 & created & Hcreate' & _ & ->).
    rewrite Hcreate in Hcreate'. injection Hcreate' as <- <-.
    destruct buildCtx; reflexivity. }
  intros contextDirectory dockerfile. cbn zeta.
  pose proof (CreateTar_locate_eq fs contextDirectory dockerfile) as Hloc.
  split; [|split].
  - intros abs Habs. rewrite Habs in Hloc.
    rewrite (CreateTar_eq _ _ _ _ _ Hloc). reflexivity.
  - intros abs Habs. rewrite Habs in Hloc. unfold CreateTar_check in Hloc.
    split; [|split; [|split]].
    + intros filename H1. rewrite H1 in Hloc.
      rewrite (CreateTar_eq _ _ _ _ _ Hloc). reflexivity.
    + intros filename rel H1 H2. rewrite H1, H2 in Hloc.
      rewrite (CreateTar_eq _ _ _ _ _ Hloc). reflexivity.
    + intros filename rel name H1 H2 H3. rewrite H1, H2, H3 in Hloc.
      rewrite (CreateTar_eq _ _ _ _ _ Hloc). reflexivity.
    + intros filename rel name H1 H2 H3 H4 H5. rewrite H1, H2, H3, H4, H5 in Hloc.
      rewrite (CreateTar_eq _ _ _ _ _ Hloc). reflexivity.
  - intros l dockerfileName Hlocated.
    rewrite (CreateTar_eq _ _ _ _ _ Hlocated). cbn [outcome_of snd].
    pose proof (CreateTar_excludes_eq fs contextDirectory) as Hex. cbn zeta in Hex.
    split; [|split].
    + intros file Hopen Hexists. rewrite Hopen, Hexists in Hex.
      rewrite (CreateTar_archive_eq _ _ _ _ _ _ Hex). reflexivity.
    + intros file excludes Hopen Hread. rewrite Hopen, Hread in Hex.
      rewrite (CreateTar_archive_eq _ _ _ _ _ _ Hex). reflexivity.
    + intros l' excludes Hexcludes.
      rewrite (CreateTar_archive_eq _ _ _ _ _ _ Hexcludes). unfold CreateTar_send.
      split; intros ->; reflexivity.
Qed.

Lemma errors_returned_unmodified_witness :
  client.ImagePull (cli (sample_docker engine_down)) "ubuntu:16.04" pull_options
    = (None, Some connection_refused)
  ∧ outcome_of (Pull (sample_docker engine_down) "ubuntu:16.04")
    = Returned (Some connection_refused)
  ∧ CreateTar fs_no_Dockerfile "/src/app" defaultDockerfile
    = ([Lstat_ "/src/app/Dockerfile"],
       Returned (None, Some (fmt_Errorf "Cannot locate Dockerfile: /src/app/Dockerfile")))
  ∧ Build fs_no_Dockerfile (sample_docker engine_down) "/src/app" "build-test" ∅
    = ([Lstat_ "/src/app/Dockerfile"],
       Returned (Some (fmt_Errorf "Cannot locate Dockerfile: /src/app/Dockerfile"))).
Proof.
  split; [reflexivity|]. split.
  - exact (proj1 (errors_returned_unmodified fs_plain (sample_docker engine_down)
                    connection_refused) "ubuntu:16.04" None eq_refl).
  - split; [reflexivity|].
    pose proof (errors_returned_unmodified fs_no_Dockerfile (sample_docker engine_down)
                  (fmt_Errorf "Cannot locate Dockerfile: /src/app/Dockerfile")) as H.
    destruct H as (_ & _ & _ & _ & _ & H & _).
    exact (H "/src/app" "build-test" ∅ _ None eq_refl).
Defined.

(** ** List *)

Lemma foldl_append_Forall2 {A B} (R : B -> A -> Prop) (f : A -> B)
    (acc : list B) (done rest : list A) :
  (∀ x, R (f x) x) ->
  Forall2 R acc done ->
  Forall2 R (foldl (fun acc x => acc ++ [f x]) acc rest) (done ++ rest).
Proof.
  intros Hf. revert acc done. induction rest as [|x rest IH]; intros acc done Hacc.
  - rewrite app_nil_r. exact Hacc.
  - cbn [foldl]. change (done ++ x :: rest) with (done ++ [x] ++ rest).
    rewrite app_assoc. apply IH. apply Forall2_app; [exact Hacc|].
    constructor; [apply Hf | constructor].
Qed.

(** C6.  When the engine call succeeds, [List] returns one [ImageSummary]
    for each summary of the engine's answer, in the same order, and each
    of its ten fields is the engine's field, as received. *)
Theorem List_copies_summaries (docker : dockerCmd) (filter : gmap string string)
    (summaries : list types.ImageSummary)
    (Hcall : client.ImageList (cli docker) {| types.Filters := list_filters filter |}
             = (summaries, None)) :
  ∃ images,
    outcome_of (List docker filter) = Returned (images, None)
    ∧ List.length images = List.length summaries
    ∧ Forall2 same_fields images summaries.
Proof.
  rewrite List_eq, Hcall. eexists. split; [reflexivity|].
  match goal with
  | |- _ ∧ Forall2 _ ?images _ => assert (H : Forall2 same_fields images summaries)
  end.
  { apply (foldl_append_Forall2 same_fields _ [] [] summaries).
    - intros x. repeat split.
    - constructor. }
  split; [exact (Forall2_length _ _ _ H) | exact H].
Qed.

Lemma List_copies_summaries_witness :
  client.ImageList (cli (sample_docker engine_up))
    {| types.Filters := list_filters {[ "dangling" := "false" ]} |}
  = (fst (client.ImageList engine_up {| types.Filters := ∅ |}), None)
  ∧ ∃ images,
      outcome_of (List (sample_docker engine_up) {[ "dangling" := "false" ]})
        = Returned (images, None)
      ∧ List.length images = 2%nat
      ∧ Forall2 same_fields images (fst (client.ImageList engine_up {| types.Filters := ∅ |})).
Proof.
  split; [reflexivity|].
  exact (List_copies_summaries (sample_docker engine_up) {[ "dangling" := "false" ]}
           (fst (client.ImageList engine_up {| types.Filters := ∅ |})) eq_refl).
Defined.

(** ** The filter arguments *)

Lemma list_filters_eq (filter : gmap string string) :
  list_filters filter = (fun v : string => ({[ v ]} : gset string)) <$> filter.
Proof.
  unfold list_filters.
  apply (map_fold_weak_ind
           (fun (args : gmap string (gset string)) (m : gmap string string) =>
              args = (fun v : string => ({[ v ]} : gset string)) <$> m)).
  - unfold filters.NewArgs. rewrite fmap_empty. reflexivity.
  - intros k v m args Hfresh ->. unfold filters.Add.
    rewrite lookup_fmap, Hfresh. cbn. rewrite fmap_insert. reflexivity.
Qed.

Lemma list_filters_lookup (filter : gmap string string) (k v : string) :
  (∃ values, list_filters filter !! k = Some values ∧ v ∈ values)
  <-> filter !! k = Some v.
Proof.
  rewrite list_filters_eq, lookup_fmap. split.
  - intros (values & H & Hv). destruct (filter !! k) as [v'|]; [|discriminate].
    cbn in H. injection H as <-. apply elem_of_singleton in Hv. congruence.
  - intros ->. exists {[ v ]}. split; [reflexivity | apply elem_of_singleton; reflexivity].
Qed.

(** ** The request of Build *)

Lemma fs_log_In (l : list Event) (ev : Event) :
  forallb is_fs_call l = true -> In ev l -> is_fs_call ev = true.
Proof. rewrite forallb_forall. auto. Qed.

Lemma scan_log_In (resp : option ReadCloser) (n : nat) (ev : Event) :
  In ev (scan_log resp n) -> is_decode ev = true.
Proof.
  destruct resp as [rc|]; [|intros []]. cbn [scan_log].
  induction n as [|n IH]; [intros [] | intros [<-|H]; [reflexivity | exact (IH H)]].
Qed.

(** Every [ImageBuild] call that [Build] logs carries the archive of
    [CreateTar] and the options of lines 112-121. *)
Lemma Build_request fs docker contextDirectory imagePath args buildCtx options :
  In (ImageBuild_ buildCtx options)
     (log_of (Build fs docker contextDirectory imagePath args)) ->
  options = build_options docker imagePath args
  ∧ ∃ l, CreateTar fs contextDirectory defaultDockerfile = (l, Returned (buildCtx, None)).
Proof.
  destruct (Build_eq fs docker contextDirectory imagePath args)
    as (l & created & Hcreate & Hl & ->).
  assert (Hfs : In (ImageBuild_ buildCtx options) l -> False).
  { intros H. apply (fs_log_In _ _ Hl) in H. discriminate H. }
  destruct created as [[archive|] [e|]]; cbn [Build_after_CreateTar log_of fst];
    try (intros H; destruct (Hfs H)).
  destruct (client.ImageBuild _ _ _) as [response err].
  destruct (types.Body response) as [body|]; cbn [log_of fst];
    rewrite in_app_iff; intros [H|H]; try destruct (Hfs H).
  - destruct H as [[= <- <-]|H]; [split; [reflexivity | eauto]|].
    apply in_app_iff in H. destruct H as [H|H].
    + destruct (after_call_scan (Some body) err) as (n & Hscan & _).
      rewrite Hscan in H. apply scan_log_In in H. discriminate H.
    + destruct H as [[=]|[[=]|[]]].
  - destruct H as [[= <- <-]|[[=]|[]]]. split; [reflexivity | eauto].
Qed.

Lemma Build_sends_request fs docker contextDirectory imagePath args l buildCtx :
  CreateTar fs contextDirectory defaultDockerfile = (l, Returned (Some buildCtx, None)) ->
  In (ImageBuild_ (Some buildCtx) (build_options docker imagePath args))
     (log_of (Build fs docker contextDirectory imagePath args)).
Proof.
  intros Hcreate.
  destruct (Build_eq fs docker contextDirectory imagePath args)
    as (l0 & created & Hcreate' & _ & ->).
  rewrite Hcreate in Hcreate'. injection Hcreate' as <- <-.
  cbn [Build_after_CreateTar]. destruct (client.ImageBuild _ _ _) as [response err].
  destruct (types.Body response); cbn [log_of fst]; apply in_app_iff; right; left;
    reflexivity.
Qed.

(** C7.  [List] hands the engine filter arguments that hold each pair of
    the caller's map and nothing else: [v] is a value of the filter [k]
    exactly when the map binds [k] to [v].  [Build] hands the engine the
    caller's build-argument map as it is. *)
Theorem maps_forwarded_verbatim (fs : FileSystem) (docker : dockerCmd) :
  (∀ filter : gmap string string,
     ∃ args,
       log_of (List docker filter) = [ImageList_ {| types.Filters := args |}]
       ∧ ∀ k v, (∃ values, args !! k = Some values ∧ v ∈ values)
                <-> filter !! k = Some v)
  ∧ (∀ contextDirectory imagePath args,
       (∀ buildCtx options,
          In (ImageBuild_ buildCtx options)
             (log_of (Build fs docker contextDirectory imagePath args)) ->
          types.BuildArgs options = args)
       ∧ (∀ l buildCtx,
            CreateTar fs contextDirectory defaultDockerfile
              = (l, Returned (Some buildCtx, None)) ->
            ∃ options,
              In (ImageBuild_ (Some buildCtx) options)
                 (log_of (Build fs docker contextDirectory imagePath args))
              ∧ types.BuildArgs options = args)).
Proof.
  split.
  - intros filter. exists (list_filters filter). rewrite List_eq.
    split; [reflexivity | apply list_filters_lookup].
  - intros contextDirectory imagePath args. split.
    + intros buildCtx options H. apply Build_request in H as [-> _]. reflexivity.
    + intros l buildCtx Hcreate. eexists. split.
      * exact (Build_sends_request _ _ _ _ _ _ _ Hcreate).
      * reflexivity.
Qed.

Lemma maps_forwarded_verbatim_witness :
  In (ImageBuild_ (Some {| handle := 1; stream := [] |})
        (build_options (sample_docker engine_up) "build-test" sample_args))
     (log_of (Build fs_plain (sample_docker engine_up) "/src/app" "build-test" sample_args))
  ∧ types.BuildArgs (build_options (sample_docker engine_up) "build-test" sample_args)
    = sample_args.
Proof.
  assert (H : In (ImageBuild_ (Some {| handle := 1; stream := [] |})
                    (build_options (sample_docker engine_up) "build-test" sample_args))
                 (log_of (Build fs_plain (sample_docker engine_up) "/src/app"
                            "build-test" sample_args)))
    by (do 4 right; left; reflexivity).
  split; [exact H|].
  exact (proj1 (proj2 (maps_forwarded_verbatim fs_plain (sample_docker engine_up))
                  "/src/app" "build-test" sample_args) _ _ H).
Defined.

(** ** NewClient *)

Lemma NewClient_fields client_NewClient json_Marshal EncodeToString cfg docker :
  NewClient client_NewClient json_Marshal EncodeToString cfg = (Some docker, None) ->
  noCache docker = true ∧ forceRm docker = true ∧ pull docker = true
  ∧ registryAuthString docker
    = EncodeToString
        (fst (json_Marshal {| types.Username := User cfg; types.Password := Passwd cfg |})).
Proof.
  unfold NewClient. destruct (client_NewClient _ _) as [c|e]; [|discriminate].
  destruct (json_Marshal _) as [authBytes err]. intros [= <-]. repeat split.
Qed.

(** C8.  Whatever the [Configs] given to [NewClient] and the arguments
    given to [Build], the build request has [NoCache], [Remove],
    [ForceRemove] and [PullParent] set, names the Dockerfile "Dockerfile",
    and has the image path as its only tag. *)
Theorem Build_request_is_fixed
    (client_NewClient : string -> string -> client.Client + error)
    (json_Marshal : types.AuthConfig -> list Byte.byte * option error)
    (EncodeToString : list Byte.byte -> string)
    (cfg : Configs) (docker : dockerCmd)
    (Hnew : NewClient client_NewClient json_Marshal EncodeToString cfg = (Some docker, None))
    (fs : FileSystem) (contextDirectory imagePath : string)
    (args : gmap string (option string)) :
  (∀ buildCtx options,
     In (ImageBuild_ buildCtx options)
        (log_of (Build fs docker contextDirectory imagePath args)) ->
     types.NoCache options = true
     ∧ types.Remove options = true
     ∧ types.ForceRemove options = true
     ∧ types.PullParent options = true
     ∧ types.Dockerfile options = "Dockerfile"
     ∧ types.Tags options = [imagePath])
  ∧ (∀ l buildCtx,
       CreateTar fs contextDirectory defaultDockerfile
         = (l, Returned (Some buildCtx, None)) ->
       ∃ options,
         In (ImageBuild_ (Some buildCtx) options)
            (log_of (Build fs docker contextDirectory imagePath args))).
Proof.
  destruct (NewClient_fields _ _ _ _ _ Hnew) as (HnoCache & HforceRm & Hpull & _).
  split.
  - intros buildCtx options H. apply Build_request in H as [-> _].
    cbn [build_options types.NoCache types.Remove types.ForceRemove types.PullParent
         types.Dockerfile types.Tags].
    rewrite HnoCache, HforceRm, Hpull. repeat split.
  - intros l buildCtx Hcreate. eexists.
    exact (Build_sends_request _ _ _ _ _ _ _ Hcreate).
Qed.

Lemma Build_request_is_fixed_witness :
  sample_NewClient engine_up sample_Configs = (Some (sample_docker engine_up), None)
  ∧ (let options := build_options (sample_docker engine_up) "build-test" sample_args in
     In (ImageBuild_ (Some {| handle := 1; stream := [] |}) options)
        (log_of (Build fs_plain (sample_docker engine_up) "/src/app" "build-test"
                   sample_args))
     ∧ types.NoCache options = true
     ∧ types.Remove options = true
     ∧ types.ForceRemove options = true
     ∧ types.PullParent options = true
     ∧ types.Dockerfile options = "Dockerfile"
     ∧ types.Tags options = ["build-test"]).
Proof.
  split; [reflexivity|]. cbn zeta.
  assert (H : In (ImageBuild_ (Some {| handle := 1; stream := [] |})
                    (build_options (sample_docker engine_up) "build-test" sample_args))
                 (log_of (Build fs_plain (sample_docker engine_up) "/src/app"
                            "build-test" sample_args)))
    by (do 4 right; left; reflexivity).
  split; [exact H|].
  exact (proj1 (Build_request_is_fixed (fun _ _ => inl engine_up) sample_Marshal
                  sample_EncodeToString sample_Configs (sample_docker engine_up)
                  eq_refl fs_plain "/src/app" "build-test" sample_args) _ _ H).
Defined.

(** C9.  With a client made by [NewClient], the one engine call of [Pull]
    carries the zero options, so no [RegistryAuth], and the one engine call
    of [Push] carries as [RegistryAuth] the base64 encoding of the JSON
    form of the configured user and password. *)
Theorem registry_auth_on_Push_only
    (client_NewClient : string -> string -> client.Client + error)
    (json_Marshal : types.AuthConfig -> list Byte.byte * option error)
    (EncodeToString : list Byte.byte -> string)
    (cfg : Configs) (docker : dockerCmd)
    (Hnew : NewClient client_NewClient json_Marshal EncodeToString cfg = (Some docker, None))
    (imagePath : string) :
  (∃ options l,
     log_of (Pull docker imagePath) = ImagePull_ imagePath options :: l
     ∧ engine_calls l = 0%nat
     ∧ types.pull_RegistryAuth options = "")
  ∧ (∃ options l,
       log_of (Push docker imagePath) = ImagePush_ imagePath options :: l
       ∧ engine_calls l = 0%nat
       ∧ types.push_RegistryAuth options
         = EncodeToString
             (fst (json_Marshal
                     {| types.Username := User cfg; types.Password := Passwd cfg |}))).
Proof.
  destruct (NewClient_fields _ _ _ _ _ Hnew) as (_ & _ & _ & Hauth).
  split.
  - destruct (client.ImagePull (cli docker) imagePath pull_options) as [resp err] eqn:H.
    rewrite (Pull_log _ _ _ _ H). eexists _, _. split; [reflexivity|].
    split; [|reflexivity]. cbn [log_of fst].
    destruct (after_call_scan resp err) as (n & -> & _).
    rewrite engine_calls_app, scan_log_no_engine_call, close_log_no_engine_call.
    reflexivity.
  - destruct (client.ImagePush (cli docker) imagePath (push_options docker))
      as [resp err] eqn:H.
    rewrite (Push_log _ _ _ _ H). eexists _, _. split; [reflexivity|].
    split; [|exact Hauth]. cbn [log_of fst].
    destruct (after_call_scan resp err) as (n & -> & _).
    rewrite engine_calls_app, scan_log_no_engine_call, close_log_no_engine_call.
    reflexivity.
Qed.

Lemma registry_auth_on_Push_only_witness :
  sample_NewClient engine_up sample_Configs = (Some (sample_docker engine_up), None)
  ∧ (∃ options l,
       log_of (Pull (sample_docker engine_up) "ubuntu:16.04")
         = ImagePull_ "ubuntu:16.04" options :: l
       ∧ engine_calls l = 0%nat
       ∧ types.pull_RegistryAuth options = "")
  ∧ (∃ options l,
       log_of (Push (sample_docker engine_up) "ubuntu:16.04")
         = ImagePush_ "ubuntu:16.04" options :: l
       ∧ engine_calls l = 0%nat
       ∧ types.push_RegistryAuth options
         = sample_EncodeToString
             (fst (sample_Marshal {| types.Username := "u"; types.Password := "p" |}))).
Proof.
  split; [reflexivity|].
  exact (registry_auth_on_Push_only (fun _ _ => inl engine_up) sample_Marshal
           sample_EncodeToString sample_Configs (sample_docker engine_up) eq_refl
           "ubuntu:16.04").
Defined.


(** * Further properties of the code *)

(** ** detectErrorMessage: failures of the decoder, and what is never read *)

(** X1.  A failure of [Decode] other than [io.EOF] that comes after
    messages without embedded error ends the scan: it is returned as it
    is, after one [Decode] per message and one for the failure. *)
Theorem detectErrorMessage_returns_decode_failure (rc : ReadCloser)
    (pre rest : list DecodeStep) (e : error)
    (Hstream : stream rc = pre ++ Fail e :: rest)
    (Hpre : Forall clean pre)
    (Hfailure : e ≠ io_EOF) :
  detectErrorMessage (Some rc)
  = (replicate (S (List.length pre)) (Decode_ (handle rc)), Returned (Some e)).
Proof.
  cbn [detectErrorMessage]. rewrite Hstream, detectLoop_skip by exact Hpre.
  rewrite detectLoop_step. destruct (decide (e = io_EOF)); [contradiction|].
  cbn [log_of outcome_of fst snd]. f_equal.
  change (S (List.length pre)) with (1 + List.length pre)%nat.
  rewrite Nat.add_comm, replicate_add. reflexivity.
Qed.

Lemma detectErrorMessage_returns_decode_failure_witness :
  stream garbled_body
    = [Msg progress_message]
        ++ Fail (LibError "invalid character '<' looking for beginning of value") :: []
  ∧ Forall clean [Msg progress_message]
  ∧ LibError "invalid character '<' looking for beginning of value" ≠ io_EOF
  ∧ detectErrorMessage (Some garbled_body)
    = ([Decode_ 9; Decode_ 9],
       Returned (Some (LibError "invalid character '<' looking for beginning of value"))).
Proof.
  assert (Hpre : Forall clean [Msg progress_message]) by (repeat constructor).
  assert (Hne : LibError "invalid character '<' looking for beginning of value" ≠ io_EOF)
    by discriminate.
  split; [reflexivity|]. split; [exact Hpre|]. split; [exact Hne|].
  exact (detectErrorMessage_returns_decode_failure garbled_body [Msg progress_message] []
           _ eq_refl Hpre Hne).
Defined.

(** X2.  The scan stops at the first step that is not a message without
    embedded error (a message with one, a failure, the end of the
    stream): what the stream holds after that step is never decoded and
    changes neither the result nor the log. *)
Theorem detectErrorMessage_reads_no_further (h : nat) (pre rest rest' : list DecodeStep)
    (step : DecodeStep)
    (Hpre : Forall clean pre)
    (Hstep : ¬ clean step) :
  detectErrorMessage (Some {| handle := h; stream := pre ++ step :: rest |})
  = detectErrorMessage (Some {| handle := h; stream := pre ++ step :: rest' |}).
Proof.
  cbn [detectErrorMessage handle stream].
  rewrite !detectLoop_skip by exact Hpre. rewrite !(detectLoop_step h (step :: _)).
  destruct step as [jm|err]; [|reflexivity].
  cbn [clean] in Hstep. destruct (embedded_error jm); [reflexivity | contradiction].
Qed.

Lemma detectErrorMessage_reads_no_further_witness :
  Forall clean [Msg progress_message]
  ∧ ¬ clean (Msg failure_message)
  ∧ detectErrorMessage (Some failing_body)
    = detectErrorMessage
        (Some {| handle := 7; stream := [Msg progress_message; Msg failure_message] |}).
Proof.
  assert (Hpre : Forall clean [Msg progress_message]) by (repeat constructor).
  assert (Hstep : ¬ clean (Msg failure_message)) by (cbn; discriminate).
  split; [exact Hpre|]. split; [exact Hstep|].
  exact (detectErrorMessage_reads_no_further 7 [Msg progress_message]
           [Msg detailed_failure_message] [] (Msg failure_message) Hpre Hstep).
Defined.

Lemma detectLoop_error_source (h : nat) (s : list DecodeStep) (e : error) :
  outcome_of (detectLoop h s) = Returned (Some e) ->
  (∃ jm, In (Msg jm) s ∧ embedded_error jm = Some e) ∨ (In (Fail e) s ∧ e ≠ io_EOF).
Proof.
  induction s as [|[jm|err] s IH]; rewrite detectLoop_step.
  - intros [=].
  - destruct (embedded_error jm) as [e'|] eqn:He.
    + intros [= <-]. left. exists jm. split; [left; reflexivity | exact He].
    + intros H. destruct (IH H) as [(jm' & Hin & He')|[Hin Hne]].
      * left. exists jm'. split; [right; exact Hin | exact He'].
      * right. split; [right; exact Hin | exact Hne].
  - destruct (decide (err = io_EOF)) as [->|Hne]; [intros [=]|].
    intros [= <-]. right. split; [left; reflexivity | exact Hne].
Qed.

(** X3.  Every error that [detectErrorMessage] returns comes from the
    stream: it is the embedded error of one of its messages or a failure
    the decoder reported, and it is never [io.EOF]. *)
Theorem detectErrorMessage_error_comes_from_stream (rc : ReadCloser) (e : error)
    (Hreturned : outcome_of (detectErrorMessage (Some rc)) = Returned (Some e)) :
  e ≠ io_EOF
  ∧ ((∃ jm, In (Msg jm) (stream rc) ∧ embedded_error jm = Some e)
     ∨ In (Fail e) (stream rc)).
Proof.
  cbn [detectErrorMessage] in Hreturned.
  destruct (detectLoop_error_source _ _ _ Hreturned) as [(jm & Hin & He)|[Hin Hne]].
  - split; [|left; eauto]. intros ->. unfold embedded_error in He.
    destruct (jsonmessage.Error jm); [discriminate|].
    destruct (decide (jsonmessage.ErrorMessage jm = "")); discriminate.
  - split; [exact Hne | right; exact Hin].
Qed.

Lemma detectErrorMessage_error_comes_from_stream_witness :
  outcome_of (detectErrorMessage (Some failing_body))
    = Returned (Some (errors_New "manifest unknown"))
  ∧ errors_New "manifest unknown" ≠ io_EOF
  ∧ ((∃ jm, In (Msg jm) (stream failing_body)
            ∧ embedded_error jm = Some (errors_New "manifest unknown"))
     ∨ In (Fail (errors_New "manifest unknown")) (stream failing_body)).
Proof.
  split; [reflexivity|].
  exact (detectErrorMessage_error_comes_from_stream failing_body
           (errors_New "manifest unknown") eq_refl).
Defined.

(** ** Pull and Push: the answers of the engine that are not scanned *)

(** X4.  When the engine hands over a stream together with an error,
    [Pull] and [Push] close the stream without a single [Decode] and
    return the error; when it hands over neither a stream nor an error,
    they panic, in [detectErrorMessage], on the nil reader. *)
Theorem Pull_and_Push_without_scan (docker : dockerCmd) (imagePath : string) :
  (∀ rc e,
     client.ImagePull (cli docker) imagePath pull_options = (Some rc, Some e) ->
     Pull docker imagePath
     = ([ImagePull_ imagePath pull_options; Close_ (handle rc)], Returned (Some e)))
  ∧ (client.ImagePull (cli docker) imagePath pull_options = (None, None) ->
     Pull docker imagePath = ([ImagePull_ imagePath pull_options], Panicked))
  ∧ (∀ rc e,
       client.ImagePush (cli docker) imagePath (push_options docker) = (Some rc, Some e) ->
       Push docker imagePath
       = ([ImagePush_ imagePath (push_options docker); Close_ (handle rc)],
          Returned (Some e)))
  ∧ (client.ImagePush (cli docker) imagePath (push_options docker) = (None, None) ->
     Push docker imagePath
     = ([ImagePush_ imagePath (push_options docker)], Panicked)).
Proof.
  split; [|split; [|split]].
  - intros rc e H. rewrite (Pull_log _ _ _ _ H). reflexivity.
  - intros H. rewrite (Pull_log _ _ _ _ H). reflexivity.
  - intros rc e H. rewrite (Push_log _ _ _ _ H). reflexivity.
  - intros H. rewrite (Push_log _ _ _ _ H). reflexivity.
Qed.

Lemma Pull_and_Push_without_scan_witness :
  client.ImagePull (cli (sample_docker engine_stream_and_error)) "ubuntu:16.04"
    pull_options = (Some clean_body, Some connection_refused)
  ∧ Pull (sample_docker engine_stream_and_error) "ubuntu:16.04"
    = ([ImagePull_ "ubuntu:16.04" pull_options; Close_ 8],
       Returned (Some connection_refused)).
Proof.
  split; [reflexivity|].
  exact (proj1 (Pull_and_Push_without_scan (sample_docker engine_stream_and_error)
                  "ubuntu:16.04") clean_body connection_refused eq_refl).
Defined.

(** ** CreateTar: what is ignored, and what reaches the archive *)

(** X5.  Only a not-exist error of the [os.Lstat] on the chosen Dockerfile
    stops [CreateTar]: any other error of that call is ignored, and the
    function goes on to open [.dockerignore] as if the file were there. *)
Theorem CreateTar_ignores_other_Lstat_errors (fs : FileSystem)
    (contextDirectory dockerfile abs filename rel name : string) (e : error)
    (Habs : filepath_Abs fs contextDirectory = (abs, None))
    (Hfile : filepath_Abs fs
               (snd (chosen_Dockerfile fs contextDirectory abs dockerfile))
             = (filename, None))
    (Hrel : filepath_Rel fs abs filename = (rel, None))
    (Hname : archive_CanonicalTarNameForPath fs rel = (name, None))
    (Hlstat : os_Lstat fs filename = Some e)
    (Hother : os_IsNotExist (Some e) = false) :
  let probed := probed_Dockerfiles fs abs dockerfile in
  CreateTar_locate fs contextDirectory dockerfile
    = (probed ++ [Lstat_ filename], Returned (inl name))
  ∧ CreateTar fs contextDirectory dockerfile
    = ((probed ++ [Lstat_ filename])
         ++ log_of (CreateTar_archive fs contextDirectory name),
       outcome_of (CreateTar_archive fs contextDirectory name))
  ∧ ∃ l, log_of (CreateTar fs contextDirectory dockerfile)
         = probed ++ Lstat_ filename
             :: Open_ (path_Join fs contextDirectory ".dockerignore") :: l.
Proof.
  cbn zeta.
  pose proof (CreateTar_locate_eq fs contextDirectory dockerfile) as Hloc.
  rewrite Habs in Hloc. unfold CreateTar_check in Hloc.
  rewrite Hfile, Hrel, Hname, Hlstat, Hother in Hloc.
  split; [exact Hloc|]. rewrite (CreateTar_eq _ _ _ _ _ Hloc).
  split; [reflexivity|]. cbn [log_of fst].
  destruct (local_CreateTar_excludes fs contextDirectory) as (l & [excludes err] & Hex & _).
  rewrite (CreateTar_archive_eq _ _ _ _ _ _ Hex).
  pose proof (CreateTar_excludes_eq fs contextDirectory) as Hex'. cbn zeta in Hex'.
  rewrite Hex in Hex'.
  destruct (os_Open fs (path_Join fs contextDirectory ".dockerignore")) as [file [e'|]];
    injection Hex' as -> _; destruct err; cbn [log_of fst];
    rewrite <- app_assoc; cbn [app]; eexists; reflexivity.
Qed.

Lemma CreateTar_ignores_other_Lstat_errors_witness :
  filepath_Abs fs_unreadable "/src/app" = ("/src/app", None)
  ∧ os_Lstat fs_unreadable "/src/app/Dockerfile"
    = Some (lstat_denied "/src/app/Dockerfile")
  ∧ os_IsNotExist (Some (lstat_denied "/src/app/Dockerfile")) = false
  ∧ CreateTar_locate fs_unreadable "/src/app" "Dockerfile"
    = ([Lstat_ "/src/app/Dockerfile"], Returned (inl "Dockerfile")).
Proof.
  split; [reflexivity|]. split; [reflexivity|]. split; [reflexivity|].
  exact (proj1 (CreateTar_ignores_other_Lstat_errors fs_unreadable "/src/app"
                  "Dockerfile" "/src/app" "/src/app/Dockerfile" "Dockerfile" "Dockerfile"
                  (lstat_denied "/src/app/Dockerfile")
                  eq_refl eq_refl eq_refl eq_refl eq_refl eq_refl)).
Defined.

(** X6.  [CreateTar] uses the answer of [fileutils.Matches] and drops its
    error: on two filesystems that differ only in the error that [Matches]
    reports, it makes the same calls and returns the same result. *)
Theorem CreateTar_discards_Matches_errors (fs : FileSystem)
    (matches : string -> list string -> bool * option error)
    (Hmatches : ∀ name excludes,
                  fst (matches name excludes) = fst (fileutils_Matches fs name excludes))
    (contextDirectory dockerfile : string) :
  CreateTar (with_Matches matches fs) contextDirectory dockerfile
  = CreateTar fs contextDirectory dockerfile.
Proof.
  assert (Harchive : ∀ name,
            CreateTar_archive (with_Matches matches fs) contextDirectory name
            = CreateTar_archive fs contextDirectory name).
  { intros name.
    destruct (local_CreateTar_excludes fs contextDirectory)
      as (l & [excludes err] & Hex & _).
    rewrite (CreateTar_archive_eq fs _ _ _ _ _ Hex).
    rewrite (CreateTar_archive_eq (with_Matches matches fs) _ _ l excludes err Hex).
    destruct err; [reflexivity|].
    unfold CreateTar_send, tar_options.
    cbn [with_Matches fileutils_Matches builder_ValidateContextDirectory
         archive_TarWithOptions].
    rewrite !Hmatches. reflexivity. }
  destruct (local_CreateTar_locate fs contextDirectory dockerfile)
    as (l & located & Hloc & _).
  rewrite (CreateTar_eq fs _ _ _ _ Hloc).
  rewrite (CreateTar_eq (with_Matches matches fs) _ _ l located Hloc).
  destruct located; [rewrite Harchive|]; reflexivity.
Qed.

Lemma CreateTar_discards_Matches_errors_witness :
  (∀ name excludes,
     fst (complaining_Matches name excludes)
     = fst (fileutils_Matches fs_ignoring name excludes))
  ∧ CreateTar (with_Matches complaining_Matches fs_ignoring) "/src/app" "Dockerfile"
    = CreateTar fs_ignoring "/src/app" "Dockerfile".
Proof.
  assert (H : ∀ name excludes,
            fst (complaining_Matches name excludes)
            = fst (fileutils_Matches fs_ignoring name excludes))
    by (intros; reflexivity).
  split; [exact H|].
  exact (CreateTar_discards_Matches_errors fs_ignoring complaining_Matches H
           "/src/app" "Dockerfile").
Defined.

Lemma probed_Dockerfiles_no_archive fs abs dockerfile :
  forallb (fun ev => negb (is_TarWithOptions ev)) (probed_Dockerfiles fs abs dockerfile)
  = true.
Proof.
  unfold probed_Dockerfiles. destruct (decide (dockerfile = "")); [|reflexivity].
  destruct (os_IsNotExist _); reflexivity.
Qed.

Lemma CreateTar_locate_shape fs contextDirectory dockerfile :
  ∃ l located,
    CreateTar_locate fs contextDirectory dockerfile = (l, Returned located)
    ∧ forallb (fun ev => negb (is_TarWithOptions ev)) l = true
    ∧ ∀ result, located = inr result -> ∃ e, result = (None, Some e).
Proof.
  rewrite CreateTar_locate_eq.
  destruct (filepath_Abs fs contextDirectory) as [abs [e|]].
  { eexists _, _. split; [reflexivity|]. split; [reflexivity|]. intros ? [= <-]. eauto. }
  unfold CreateTar_check.
  pose proof (probed_Dockerfiles_no_archive fs abs dockerfile) as Hprobed.
  destruct (filepath_Abs fs _) as [filename [e|]].
  { eexists _, _. split; [reflexivity|]. split; [exact Hprobed|]. intros ? [= <-]. eauto. }
  destruct (filepath_Rel fs abs filename) as [rel [e|]].
  { eexists _, _. split; [reflexivity|]. split; [exact Hprobed|]. intros ? [= <-]. eauto. }
  destruct (archive_CanonicalTarNameForPath fs rel) as [name [e|]].
  { eexists _, _. split; [reflexivity|]. split; [exact Hprobed|]. intros ? [= <-]. eauto. }
  eexists _, _. split; [reflexivity|]. split.
  - rewrite forallb_app, Hprobed. reflexivity.
  - destruct (os_IsNotExist _); intros ? [= <-]. eauto.
Qed.

Lemma CreateTar_excludes_shape fs contextDirectory :
  ∃ l excludes err,
    CreateTar_excludes fs contextDirectory = (l, Returned (excludes, err))
    ∧ forallb (fun ev => negb (is_TarWithOptions ev)) l = true.
Proof.
  pose proof (CreateTar_excludes_eq fs contextDirectory) as H. cbn zeta in H.
  rewrite H. destruct (os_Open fs _) as [file [e|]].
  - destruct (os_IsNotExist (Some e)); eexists _, _, _; split; reflexivity.
  - destruct (dockerignore_ReadAll fs file) as [excludes [e|]];
      eexists _, _, _; split; reflexivity.
Qed.

(** [CreateTar] either returns an error, with no archive and without a
    call of [TarWithOptions], or it ends with the validation of the
    context directory and the one call of [TarWithOptions], whose result
    it returns. *)
Lemma CreateTar_shape fs contextDirectory dockerfile :
  (∃ l e,
     CreateTar fs contextDirectory dockerfile = (l, Returned (None, Some e))
     ∧ forallb (fun ev => negb (is_TarWithOptions ev)) l = true)
  ∨ (∃ l name excludes,
       CreateTar fs contextDirectory dockerfile
       = (l ++ [ValidateContextDirectory_ contextDirectory excludes;
                TarWithOptions_ contextDirectory (tar_options fs name excludes)],
          Returned (archive_TarWithOptions fs contextDirectory
                      (tar_options fs name excludes)))
       ∧ forallb (fun ev => negb (is_TarWithOptions ev)) l = true
       ∧ builder_ValidateContextDirectory fs contextDirectory excludes = None).
Proof.
  destruct (CreateTar_locate_shape fs contextDirectory dockerfile)
    as (l & located & Hloc & Hl & Hreturn).
  rewrite (CreateTar_eq _ _ _ _ _ Hloc). destruct located as [name|result].
  - destruct (CreateTar_excludes_shape fs contextDirectory)
      as (l' & excludes & err & Hex & Hl').
    rewrite (CreateTar_archive_eq _ _ _ _ _ _ Hex). destruct err as [e|].
    + left. eexists _, _. split; [reflexivity|]. cbn [log_of fst].
      rewrite forallb_app, Hl, Hl'. reflexivity.
    + unfold CreateTar_send.
      destruct (builder_ValidateContextDirectory fs contextDirectory excludes)
        as [e|] eqn:Hvalid; cbn [log_of outcome_of fst snd].
      * left. eexists _, _. split; [reflexivity|].
        rewrite !forallb_app, Hl, Hl'. reflexivity.
      * right. exists (l ++ l'), name, excludes. rewrite <- app_assoc.
        split; [reflexivity|]. split; [|exact Hvalid].
        rewrite forallb_app, Hl, Hl'. reflexivity.
  - destruct (Hreturn result eq_refl) as [e ->]. left. eauto.
Qed.

Lemma no_archive_call_In (l : list Event) (dir : string) (options : archive.TarOptions) :
  forallb (fun ev => negb (is_TarWithOptions ev)) l = true ->
  In (TarWithOptions_ dir options) l -> False.
Proof.
  rewrite forallb_forall. intros H Hin. specialize (H _ Hin). discriminate H.
Qed.

(** X7.  Whatever [CreateTar] asks [archive.TarWithOptions] for, it asks
    for the context directory as the caller gave it, uncompressed, with
    an include list that is ["."] or ["."; ".dockerignore"; name], and
    with exclusion patterns that [builder.ValidateContextDirectory] has
    been called on and has accepted; and what that call returns is the
    result of [CreateTar]. *)
Theorem CreateTar_archives_what_was_validated (fs : FileSystem)
    (contextDirectory dockerfile dir : string) (options : archive.TarOptions)
    (Hcall : In (TarWithOptions_ dir options)
                (log_of (CreateTar fs contextDirectory dockerfile))) :
  dir = contextDirectory
  ∧ archive.Compression_ options = archive.Uncompressed
  ∧ (archive.IncludeFiles options = ["."]
     ∨ ∃ name, archive.IncludeFiles options = ["."; ".dockerignore"; name])
  ∧ builder_ValidateContextDirectory fs contextDirectory
      (archive.ExcludePatterns options) = None
  ∧ In (ValidateContextDirectory_ contextDirectory (archive.ExcludePatterns options))
       (log_of (CreateTar fs contextDirectory dockerfile))
  ∧ outcome_of (CreateTar fs contextDirectory dockerfile)
    = Returned (archive_TarWithOptions fs contextDirectory options).
Proof.
  destruct (CreateTar_shape fs contextDirectory dockerfile)
    as [(l & e & Heq & Hl)|(l & name & excludes & Heq & Hl & Hvalid)];
    rewrite Heq in Hcall |- *; cbn [log_of outcome_of fst snd] in Hcall |- *.
  - destruct (no_archive_call_In _ _ _ Hl Hcall).
  - apply in_app_iff in Hcall.
    destruct Hcall as [Hcall|[[=]|[[= <- <-]|[]]]];
      [destruct (no_archive_call_In _ _ _ Hl Hcall)|].
    split; [reflexivity|]. split; [reflexivity|]. split.
    { unfold tar_options. cbn [archive.IncludeFiles].
      destruct (_ || _); [right; eexists; reflexivity | left; reflexivity]. }
    split; [exact Hvalid|]. split; [|reflexivity].
    apply in_app_iff. right. left. reflexivity.
Qed.

Lemma CreateTar_archives_what_was_validated_witness :
  let options :=
    {| archive.Compression_ := archive.Uncompressed;
       archive.ExcludePatterns := ["Dockerfile"; "node_modules"];
       archive.IncludeFiles := ["."; ".dockerignore"; "Dockerfile"] |} in
  In (TarWithOptions_ "/src/app" options)
     (log_of (CreateTar fs_ignoring "/src/app" "Dockerfile"))
  ∧ builder_ValidateContextDirectory fs_ignoring "/src/app"
      ["Dockerfile"; "node_modules"] = None
  ∧ outcome_of (CreateTar fs_ignoring "/src/app" "Dockerfile")
    = Returned (archive_TarWithOptions fs_ignoring "/src/app" options).
Proof.
  cbn zeta.
  assert (H : In (TarWithOptions_ "/src/app"
                    {| archive.Compression_ := archive.Uncompressed;
                       archive.ExcludePatterns := ["Dockerfile"; "node_modules"];
                       archive.IncludeFiles := ["."; ".dockerignore"; "Dockerfile"] |})
                 (log_of (CreateTar fs_ignoring "/src/app" "Dockerfile")))
    by (do 4 right; left; reflexivity).
  split; [exact H|].
  destruct (CreateTar_archives_what_was_validated fs_ignoring "/src/app" "Dockerfile"
              _ _ H) as (_ & _ & _ & Hvalid & _ & Hresult).
  split; [exact Hvalid | exact Hresult].
Defined.

(** X8.  [CreateTar] never panics and calls [archive.TarWithOptions] at
    most once, as its last call.  Without that call it returns no archive
    and a non-nil error; with it, it returns what the call returned.  So
    an archive, or a pair of two nils, can only come from
    [TarWithOptions]. *)
Theorem CreateTar_result_comes_from_TarWithOptions (fs : FileSystem)
    (contextDirectory dockerfile : string) :
  ∃ l result,
    CreateTar fs contextDirectory dockerfile = (l, Returned result)
    ∧ ((∃ e, result = (None, Some e)
             ∧ List.length (List.filter is_TarWithOptions l) = 0%nat)
       ∨ (∃ options,
            List.last l (Close_ 0) = TarWithOptions_ contextDirectory options
            ∧ List.length (List.filter is_TarWithOptions l) = 1%nat
            ∧ result = archive_TarWithOptions fs contextDirectory options)).
Proof.
  assert (Hcount : ∀ l, forallb (fun ev => negb (is_TarWithOptions ev)) l = true ->
                        List.filter is_TarWithOptions l = []).
  { induction l as [|ev l IH]; [reflexivity|]. cbn [forallb List.filter].
    intros [Hev Hl]%andb_prop. destruct (is_TarWithOptions ev); [discriminate|].
    exact (IH Hl). }
  destruct (CreateTar_shape fs contextDirectory dockerfile)
    as [(l & e & Heq & Hl)|(l & name & excludes & Heq & Hl & Hvalid)];
    rewrite Heq; eexists _, _; (split; [reflexivity|]).
  - left. exists e. split; [reflexivity|]. rewrite (Hcount _ Hl). reflexivity.
  - right. eexists. split; [|split; [|reflexivity]].
    + change [?a; ?b] with ([a] ++ [b]). rewrite app_assoc. apply List.last_last.
    + rewrite List.filter_app, (Hcount _ Hl). reflexivity.
Qed.

Lemma CreateTar_result_comes_from_TarWithOptions_witness :
  ∃ l result,
    CreateTar fs_no_Dockerfile "/src/app" "Dockerfile" = (l, Returned result)
    ∧ ((∃ e, result = (None, Some e)
             ∧ List.length (List.filter is_TarWithOptions l) = 0%nat)
       ∨ (∃ options,
            List.last l (Close_ 0) = TarWithOptions_ "/src/app" options
            ∧ List.length (List.filter is_TarWithOptions l) = 1%nat
            ∧ result = archive_TarWithOptions fs_no_Dockerfile "/src/app" options)).
Proof.
  exact (CreateTar_result_comes_from_TarWithOptions fs_no_Dockerfile "/src/app"
           "Dockerfile").
Defined.

(** ** Build: the Dockerfile it needs, the order of its calls, its credentials *)

(** X9.  [Build] looks for the file "Dockerfile" joined to the context
    directory and for no other: when that file does not exist it returns
    "Cannot locate Dockerfile" after that one [os.Lstat], without probing a
    lowercase "dockerfile" and without any engine call, whatever else the
    directory holds. *)
Theorem Build_needs_Dockerfile (fs : FileSystem) (docker : dockerCmd)
    (contextDirectory imagePath abs filename rel name : string)
    (args : gmap string (option string))
    (Habs : filepath_Abs fs contextDirectory = (abs, None))
    (Hfile : filepath_Abs fs (filepath_Join fs contextDirectory "Dockerfile")
             = (filename, None))
    (Hrel : filepath_Rel fs abs filename = (rel, None))
    (Hname : archive_CanonicalTarNameForPath fs rel = (name, None))
    (Habsent : os_IsNotExist (os_Lstat fs filename) = true) :
  Build fs docker contextDirectory imagePath args
  = ([Lstat_ filename],
     Returned (Some (fmt_Errorf
       ("Cannot locate Dockerfile: " ++ filepath_Join fs contextDirectory "Dockerfile")))).
Proof.
  pose proof (CreateTar_locate_eq fs contextDirectory defaultDockerfile) as Hloc.
  rewrite Habs in Hloc. unfold CreateTar_check in Hloc.
  change (chosen_Dockerfile fs contextDirectory abs defaultDockerfile)
    with (filepath_Join fs contextDirectory "Dockerfile",
          filepath_Join fs contextDirectory "Dockerfile") in Hloc.
  change (probed_Dockerfiles fs abs defaultDockerfile) with (@nil Event) in Hloc.
  cbn [fst snd] in Hloc. rewrite Hfile, Hrel, Hname, Habsent in Hloc.
  pose proof (CreateTar_eq _ _ _ _ _ Hloc) as Hcreate.
  destruct (Build_eq fs docker contextDirectory imagePath args)
    as (l & created & Hcreate' & _ & ->).
  rewrite Hcreate in Hcreate'. injection Hcreate' as <- <-. reflexivity.
Qed.

Lemma Build_needs_Dockerfile_witness :
  filepath_Abs fs_lowercase "/src/app" = ("/src/app", None)
  ∧ os_IsNotExist (os_Lstat fs_lowercase "/src/app/Dockerfile") = true
  ∧ os_Lstat fs_lowercase "/src/app/dockerfile" = None
  ∧ Build fs_lowercase (sample_docker engine_up) "/src/app" "build-test" ∅
    = ([Lstat_ "/src/app/Dockerfile"],
       Returned (Some (fmt_Errorf "Cannot locate Dockerfile: /src/app/Dockerfile"))).
Proof.
  split; [reflexivity|]. split; [reflexivity|]. split; [reflexivity|].
  exact (Build_needs_Dockerfile fs_lowercase (sample_docker engine_up) "/src/app"
           "build-test" "/src/app" "/src/app/Dockerfile" "Dockerfile" "Dockerfile" ∅
           eq_refl eq_refl eq_refl eq_refl eq_refl).
Defined.

Lemma scan_log_no_fs_call (resp : option ReadCloser) (n : nat) :
  forallb (fun ev => negb (is_fs_call ev)) (scan_log resp n) = true.
Proof.
  destruct resp as [rc|]; [|reflexivity]. cbn [scan_log].
  induction n; [reflexivity | exact IHn].
Qed.

(** X10.  [Build] does all its work on the filesystem first: its log is
    the log of [CreateTar] followed by calls none of which is a filesystem
    call.  The only engine call among them is the one [ImageBuild], on the
    archive that [CreateTar] returned, and there is nothing after the log
    of [CreateTar] when that function returned an error. *)
Theorem Build_filesystem_before_engine (fs : FileSystem) (docker : dockerCmd)
    (contextDirectory imagePath : string) (args : gmap string (option string)) :
  ∃ l created rest,
    CreateTar fs contextDirectory defaultDockerfile = (l, Returned created)
    ∧ log_of (Build fs docker contextDirectory imagePath args) = l ++ rest
    ∧ forallb is_fs_call l = true
    ∧ forallb (fun ev => negb (is_fs_call ev)) rest = true
    ∧ (∀ ev, In ev rest -> is_engine_call ev = true ->
         ∃ buildCtx,
           created = (Some buildCtx, None)
           ∧ ev = ImageBuild_ (Some buildCtx) (build_options docker imagePath args))
    ∧ (is_Some (snd created) -> rest = []).
Proof.
  destruct (Build_eq fs docker contextDirectory imagePath args)
    as (l & created & Hcreate & Hl & ->).
  exists l, created.
  assert (Hnothing : ∀ r : Outcome (option error),
            ∃ rest,
              CreateTar fs contextDirectory defaultDockerfile = (l, Returned created)
              ∧ log_of (l, r) = l ++ rest
              ∧ forallb is_fs_call l = true
              ∧ forallb (fun ev => negb (is_fs_call ev)) rest = true
              ∧ (∀ ev, In ev rest -> is_engine_call ev = true ->
                   ∃ buildCtx,
                     created = (Some buildCtx, None)
                     ∧ ev = ImageBuild_ (Some buildCtx)
                              (build_options docker imagePath args))
              ∧ (is_Some (snd created) -> rest = [])).
  { intros r. exists []. cbn [log_of fst]. rewrite app_nil_r.
    split; [exact Hcreate|]. split; [reflexivity|]. split; [exact Hl|].
    split; [reflexivity|]. split; [intros ev [] | intros _; reflexivity]. }
  destruct created as [[buildCtx|] [e|]]; cbn [Build_after_CreateTar];
    try apply Hnothing.
  clear Hnothing.
  destruct (client.ImageBuild _ _ _) as [response err].
  destruct (types.Body response) as [body|]; cbn [log_of fst];
    eexists; (split; [exact Hcreate|]); (split; [reflexivity|]);
    (split; [exact Hl|]).
  - destruct (after_call_scan (Some body) err) as (n & Hscan & _). rewrite Hscan.
    split; [|split].
    + cbn [forallb is_fs_call negb andb]. rewrite forallb_app, scan_log_no_fs_call.
      reflexivity.
    + intros ev [<-|Hin] Hengine; [eauto|].
      apply in_app_iff in Hin. destruct Hin as [Hin|[<-|[<-|[]]]]; try discriminate.
      apply scan_log_In in Hin. destruct ev; discriminate.
    + intros [? [=]].
  - split; [reflexivity|]. split.
    + intros ev [<-|[<-|[]]] Hengine; [eauto | discriminate].
    + intros [? [=]].
Qed.

Lemma Build_filesystem_before_engine_witness :
  ∃ l created rest,
    CreateTar fs_plain "/src/app" defaultDockerfile = (l, Returned created)
    ∧ log_of (Build fs_plain (sample_docker engine_up) "/src/app" "build-test" ∅)
      = l ++ rest
    ∧ forallb is_fs_call l = true
    ∧ forallb (fun ev => negb (is_fs_call ev)) rest = true
    ∧ (∀ ev, In ev rest -> is_engine_call ev = true ->
         ∃ buildCtx,
           created = (Some buildCtx, None)
           ∧ ev = ImageBuild_ (Some buildCtx)
                    (build_options (sample_docker engine_up) "build-test" ∅))
    ∧ (is_Some (snd created) -> rest = []).
Proof.
  exact (Build_filesystem_before_engine fs_plain (sample_docker engine_up) "/src/app"
           "build-test" ∅).
Defined.

(** ** NewClient *)

(** X11.  [NewClient] fails exactly when [client.NewClient] fails, with
    that error; it dials the host of the [Configs] with the API version
    "v1.23"; and it ignores the error of [json.Marshal]: a marshaller that
    yields the same bytes gives the same client, whatever error it
    reports. *)
Theorem NewClient_fails_with_the_client_only
    (client_NewClient : string -> string -> client.Client + error)
    (json_Marshal : types.AuthConfig -> list Byte.byte * option error)
    (EncodeToString : list Byte.byte -> string)
    (cfg : Configs) :
  (∀ e, NewClient client_NewClient json_Marshal EncodeToString cfg = (None, Some e)
        <-> client_NewClient (Host cfg) "v1.23" = inr e)
  ∧ (∀ c, client_NewClient (Host cfg) "v1.23" = inl c ->
          ∃ docker,
            NewClient client_NewClient json_Marshal EncodeToString cfg
              = (Some docker, None)
            ∧ cli docker = c
            ∧ dockerHost docker = Host cfg
            ∧ registry docker = Registry cfg)
  ∧ (∀ json_Marshal',
       (∀ auth, fst (json_Marshal' auth) = fst (json_Marshal auth)) ->
       NewClient client_NewClient json_Marshal' EncodeToString cfg
       = NewClient client_NewClient json_Marshal EncodeToString cfg).
Proof.
  unfold NewClient. change defaultDockerAPIVersion with "v1.23".
  split; [|split].
  - intros e. destruct (client_NewClient (Host cfg) "v1.23") as [c|e'].
    + destruct (json_Marshal _). split; intros [=].
    + split; intros [= ->]; reflexivity.
  - intros c ->. destruct (json_Marshal _). eexists. repeat split.
  - intros json_Marshal' H. destruct (client_NewClient (Host cfg) "v1.23"); [|reflexivity].
    specialize (H {| types.Username := User cfg; types.Password := Passwd cfg |}).
    destruct (json_Marshal' _), (json_Marshal _). cbn [fst] in H. subst. reflexivity.
Qed.

Lemma NewClient_fails_with_the_client_only_witness :
  NewClient (fun _ _ => inr connection_refused) sample_Marshal sample_EncodeToString
    sample_Configs = (None, Some connection_refused)
  ∧ NewClient (fun _ _ => inl engine_up)
      (fun auth => (fst (sample_Marshal auth), Some (LibError "json: unsupported value")))
      sample_EncodeToString sample_Configs
    = (Some (sample_docker engine_up), None).
Proof.
  split.
  - exact (proj2 (proj1 (NewClient_fails_with_the_client_only
                           (fun _ _ => inr connection_refused) sample_Marshal
                           sample_EncodeToString sample_Configs) connection_refused)
             eq_refl).
  - rewrite (proj2 (proj2 (NewClient_fails_with_the_client_only
                             (fun _ _ => inl engine_up) sample_Marshal
                             sample_EncodeToString sample_Configs))
               (fun auth => (fst (sample_Marshal auth),
                             Some (LibError "json: unsupported value")))
               (fun auth => eq_refl)).
    reflexivity.
Defined.

Lemma NewClient_registryAuthMap client_NewClient json_Marshal EncodeToString cfg docker :
  NewClient client_NewClient json_Marshal EncodeToString cfg = (Some docker, None) ->
  registryAuthMap docker
  = {[ Registry cfg := {| types.Username := User cfg; types.Password := Passwd cfg |} ]}.
Proof.
  unfold NewClient. destruct (client_NewClient _ _) as [c|e]; [|discriminate].
  destruct (json_Marshal _) as [authBytes err]. intros [= <-]. reflexivity.
Qed.

(** X12.  With a client made by [NewClient], every build request carries
    credentials for the configured registry and for no other: its
    [AuthConfigs] binds the [Registry] of the [Configs], and only that
    name, to the configured user and password. *)
Theorem Build_sends_configured_credentials
    (client_NewClient : string -> string -> client.Client + error)
    (json_Marshal : types.AuthConfig -> list Byte.byte * option error)
    (EncodeToString : list Byte.byte -> string)
    (cfg : Configs) (docker : dockerCmd)
    (Hnew : NewClient client_NewClient json_Marshal EncodeToString cfg = (Some docker, None))
    (fs : FileSystem) (contextDirectory imagePath : string)
    (args : gmap string (option string))
    (buildCtx : option ReadCloser) (options : types.ImageBuildOptions)
    (Hrequest : In (ImageBuild_ buildCtx options)
                   (log_of (Build fs docker contextDirectory imagePath args))) :
  ∀ name auth,
    types.AuthConfigs options !! name = Some auth
    <-> name = Registry cfg
        ∧ auth = {| types.Username := User cfg; types.Password := Passwd cfg |}.
Proof.
  apply Build_request in Hrequest as [-> _]. cbn [build_options types.AuthConfigs].
  rewrite (NewClient_registryAuthMap _ _ _ _ _ Hnew). intros name auth.
  rewrite lookup_singleton_Some. split; intros [-> ->]; split; reflexivity.
Qed.

Lemma Build_sends_configured_credentials_witness :
  sample_NewClient engine_up sample_Configs = (Some (sample_docker engine_up), None)
  ∧ In (ImageBuild_ (Some {| handle := 1; stream := [] |})
          (build_options (sample_docker engine_up) "build-test" ∅))
       (log_of (Build fs_plain (sample_docker engine_up) "/src/app" "build-test" ∅))
  ∧ (types.AuthConfigs (build_options (sample_docker engine_up) "build-test" ∅)
       !! "127.0.0.1" = Some {| types.Username := "u"; types.Password := "p" |}
     <-> "127.0.0.1" = Registry sample_Configs
         ∧ {| types.Username := "u"; types.Password := "p" |}
           = {| types.Username := User sample_Configs;
                types.Password := Passwd sample_Configs |}).
Proof.
  split; [reflexivity|].
  assert (H : In (ImageBuild_ (Some {| handle := 1; stream := [] |})
                    (build_options (sample_docker engine_up) "build-test" ∅))
                 (log_of (Build fs_plain (sample_docker engine_up) "/src/app"
                            "build-test" ∅)))
    by (do 4 right; left; reflexivity).
  split; [exact H|].
  exact (Build_sends_configured_credentials (fun _ _ => inl engine_up) sample_Marshal
           sample_EncodeToString sample_Configs (sample_docker engine_up) eq_refl
           fs_plain "/src/app" "build-test" ∅ _ _ H "127.0.0.1"
           {| types.Username := "u"; types.Password := "p" |}).
Defined.

(** ** The tests *)

Lemma log_images_eq (list : list ImageSummary) :
  log_images list = (List.map Logf_ list, Returned tt).
Proof.
  induction list as [|image list IH]; [reflexivity|].
  cbn [log_images]. rewrite IH. reflexivity.
Qed.

Lemma list_filters_empty : list_filters ∅ = ∅.
Proof. rewrite list_filters_eq. apply fmap_empty. Qed.

Lemma List_success docker filter summaries :
  client.ImageList (cli docker) {| types.Filters := list_filters filter |}
    = (summaries, None) ->
  ∃ images,
    List docker filter
    = ([ImageList_ {| types.Filters := list_filters filter |}], Returned (images, None))
    ∧ Forall2 same_fields images summaries.
Proof.
  intros H. rewrite List_eq, H. eexists. split; [reflexivity|].
  apply (foldl_append_Forall2 same_fields _ [] [] summaries).
  - intros x. repeat split.
  - constructor.
Qed.

(** X13.  [TestDockerTag] removes the reference it has tagged,
    "newRepoHost.com/ubuntu:" followed by the decimal form of the random
    number, and it does so only after both the tagging and the listing
    have succeeded: when the listing fails the test ends there and the
    new tag stays in the engine.  In between it logs one line for each
    image of the engine's answer, in order.  It passes exactly when the
    three engine calls return nil. *)
Theorem TestDockerTag_removes_what_it_tagged
    (client_NewClient : string -> string -> client.Client + error)
    (json_Marshal : types.AuthConfig -> list Byte.byte * option error)
    (EncodeToString : list Byte.byte -> string)
    (docker : dockerCmd) (intn : nat)
    (Hnew : NewClient client_NewClient json_Marshal EncodeToString
              {| Host := "tcp://127.0.0.1:2376"; Registry := "";
                 User := ""; Passwd := "" |}
            = (Some docker, None)) :
  let ref := ("newRepoHost.com/ubuntu:" ++ strconv_Itoa intn)%string in
  let test := TestDockerTag client_NewClient json_Marshal EncodeToString intn in
  let tag := Call (ImageTag_ "ubuntu:16.04" ref) in
  let list := Call (ImageList_ {| types.Filters := ∅ |}) in
  let remove := Call (ImageRemove_ ref remove_options) in
  match client.ImageTag (cli docker) "ubuntu:16.04" ref with
  | Some e => test = ([tag], Returned (FATAL "tag docker images failed:" e))
  | None =>
      match client.ImageList (cli docker) {| types.Filters := ∅ |} with
      | (_, Some e) =>
          test = ([tag; list], Returned (FATAL "list docker images failed:" e))
      | (summaries, None) =>
          ∃ images,
            Forall2 same_fields images summaries
            ∧ test
              = ([tag; list] ++ List.map Logf_ images ++ [remove],
                 Returned
                   match client.ImageRemove (cli docker) ref remove_options with
                   | Some e => FATAL "remove docker images failed:" e
                   | None => PASS
                   end)
      end
  end.
Proof.
  cbn zeta. unfold TestDockerTag. rewrite Hnew. cbn [method].
  rewrite Tag_eq. cbn [log_of outcome_of fst snd List.map].
  destruct (client.ImageTag _ _ _) as [e|]; [reflexivity|].
  cbn [tbind app]. rewrite <- list_filters_empty.
  destruct (client.ImageList _ _) as [summaries [e|]] eqn:Hlist.
  - rewrite List_eq, Hlist. reflexivity.
  - destruct (List_success _ _ _ Hlist) as (images & -> & Himages).
    exists images. split; [exact Himages|].
    cbn [log_of outcome_of fst snd List.map tbind].
    rewrite log_images_eq, Rmi_eq. cbn [log_of outcome_of fst snd List.map tbind].
    fold remove_options.
    destruct (client.ImageRemove _ _ _); cbn; rewrite ?app_nil_r; reflexivity.
Qed.

Lemma TestDockerTag_removes_what_it_tagged_witness :
  NewClient (fun _ _ => inl engine_down) sample_Marshal sample_EncodeToString
    {| Host := "tcp://127.0.0.1:2376"; Registry := ""; User := ""; Passwd := "" |}
  = (Some {| cli := engine_down; dockerHost := "tcp://127.0.0.1:2376"; registry := "";
             registryAuthString := "e30=";
             registryAuthMap :=
               {[ "" := {| types.Username := ""; types.Password := "" |} ]};
             noCache := true; forceRm := true; pull := true |}, None)
  ∧ TestDockerTag (fun _ _ => inl engine_down) sample_Marshal sample_EncodeToString 42
    = ([Call (ImageTag_ "ubuntu:16.04" "newRepoHost.com/ubuntu:42")],
       Returned (FATAL "tag docker images failed:" connection_refused)).
Proof.
  split; [reflexivity|].
  exact (TestDockerTag_removes_what_it_tagged (fun _ _ => inl engine_down) sample_Marshal
           sample_EncodeToString _ 42 eq_refl).
Defined.

(** X14.  [TestDockerbuild] pushes only after a build that returned nil,
    and it pushes the reference it has built,
    "127.0.0.1/public/build-test:master"; it removes the directory
    "./docker-build" as its last act in every case, also when [Build] or
    [Push] panics. *)
Theorem TestDockerbuild_pushes_what_it_built
    (client_NewClient : string -> string -> client.Client + error)
    (json_Marshal : types.AuthConfig -> list Byte.byte * option error)
    (EncodeToString : list Byte.byte -> string)
    (fs : FileSystem) (docker : dockerCmd)
    (Hnew : NewClient client_NewClient json_Marshal EncodeToString
              {| Host := "tcp://127.0.0.1:2376"; Registry := "127.0.0.1";
                 User := ""; Passwd := "" |}
            = (Some docker, None)) :
  let test := TestDockerbuild client_NewClient json_Marshal EncodeToString fs in
  let built :=
    Build fs docker "./docker-build" "127.0.0.1/public/build-test:master" ∅ in
  let pushed := Push docker "127.0.0.1/public/build-test:master" in
  let cleanup := [RemoveAll_ "./docker-build"] in
  match outcome_of built with
  | Panicked => test = (List.map Call (log_of built) ++ cleanup, Panicked)
  | Returned (Some e) =>
      test = (List.map Call (log_of built) ++ cleanup,
              Returned (FATAL "build docker image failed:" e))
  | Returned None =>
      test = (List.map Call (log_of built) ++ List.map Call (log_of pushed) ++ cleanup,
              match outcome_of pushed with
              | Panicked => Panicked
              | Returned (Some e) => Returned (FATAL "push docker image failed:" e)
              | Returned None => Returned PASS
              end)
  end.
Proof.
  cbn zeta. unfold TestDockerbuild. rewrite Hnew. cbn [method].
  change ("127.0.0.1" ++ "/public/build-test:master")%string
    with "127.0.0.1/public/build-test:master".
  change cloneRepo with "./docker-build".
  destruct (Build fs docker _ _ _) as [lb [[e|]|]]; cbn [log_of outcome_of fst snd tbind];
    try (cbn; rewrite ?app_nil_r; reflexivity).
  destruct (Push docker _) as [lp [[e|]|]]; cbn; rewrite ?app_nil_r, ?app_assoc;
    reflexivity.
Qed.

Lemma TestDockerbuild_pushes_what_it_built_witness :
  NewClient (fun _ _ => inl engine_up) sample_Marshal sample_EncodeToString
    {| Host := "tcp://127.0.0.1:2376"; Registry := "127.0.0.1";
       User := ""; Passwd := "" |}
  = (Some {| cli := engine_up; dockerHost := "tcp://127.0.0.1:2376";
             registry := "127.0.0.1"; registryAuthString := "e30=";
             registryAuthMap :=
               {[ "127.0.0.1" := {| types.Username := ""; types.Password := "" |} ]};
             noCache := true; forceRm := true; pull := true |}, None)
  ∧ TestDockerbuild (fun _ _ => inl engine_up) sample_Marshal sample_EncodeToString
      fs_plain
    = ([Call (Lstat_ "./docker-build/Dockerfile"); RemoveAll_ "./docker-build"],
       Returned (FATAL "build docker image failed:"
                   (fmt_Errorf "Cannot locate Dockerfile: ./docker-build/Dockerfile"))).
Proof.
  split; [reflexivity|].
  exact (TestDockerbuild_pushes_what_it_built (fun _ _ => inl engine_up) sample_Marshal
           sample_EncodeToString fs_plain _ eq_refl).
Defined.

(** X15.  The tests drop the error of [NewClient]: when the client
    cannot be made, each test panics on its first method call, on the nil
    interface, before any call of the package; [TestDockerbuild] still
    removes "./docker-build". *)
Theorem tests_panic_without_client
    (client_NewClient : string -> string -> client.Client + error)
    (json_Marshal : types.AuthConfig -> list Byte.byte * option error)
    (EncodeToString : list Byte.byte -> string)
    (fs : FileSystem) (e : error)
    (Hfail : client_NewClient "tcp://127.0.0.1:2376" "v1.23" = inr e) :
  TestDockerbuild client_NewClient json_Marshal EncodeToString fs
    = ([RemoveAll_ "./docker-build"], Panicked)
  ∧ TestDockerList client_NewClient json_Marshal EncodeToString = ([], Panicked)
  ∧ ∀ intn,
      TestDockerTag client_NewClient json_Marshal EncodeToString intn = ([], Panicked).
Proof.
  unfold TestDockerbuild, TestDockerList, TestDockerTag, NewClient.
  change defaultDockerAPIVersion with "v1.23". cbn [Host]. rewrite Hfail.
  repeat split.
Qed.

Lemma tests_panic_without_client_witness :
  (fun _ _ : string => @inr client.Client error connection_refused)
    "tcp://127.0.0.1:2376" "v1.23" = inr connection_refused
  ∧ TestDockerbuild (fun _ _ => inr connection_refused) sample_Marshal
      sample_EncodeToString fs_plain
    = ([RemoveAll_ "./docker-build"], Panicked).
Proof.
  split; [reflexivity|].
  exact (proj1 (tests_panic_without_client (fun _ _ => inr connection_refused)
                  sample_Marshal sample_EncodeToString fs_plain connection_refused
                  eq_refl)).
Defined.

(** X16.  [TestDockerList] asks for the images with an empty filter; it
    fails with the error of [List], or else logs one line for each image
    of the engine's answer, in order and with the engine's fields, and
    passes. *)
Theorem TestDockerList_logs_every_image
    (client_NewClient : string -> string -> client.Client + error)
    (json_Marshal : types.AuthConfig -> list Byte.byte * option error)
    (EncodeToString : list Byte.byte -> string)
    (docker : dockerCmd)
    (Hnew : NewClient client_NewClient json_Marshal EncodeToString
              {| Host := "tcp://127.0.0.1:2376"; Registry := "";
                 User := ""; Passwd := "" |}
            = (Some docker, None)) :
  let test := TestDockerList client_NewClient json_Marshal EncodeToString in
  let list := Call (ImageList_ {| types.Filters := ∅ |}) in
  match client.ImageList (cli docker) {| types.Filters := ∅ |} with
  | (_, Some e) => test = ([list], Returned (FATAL "list docker images failed:" e))
  | (summaries, None) =>
      ∃ images,
        Forall2 same_fields images summaries
        ∧ test = (list :: List.map Logf_ images, Returned PASS)
  end.
Proof.
  cbn zeta. unfold TestDockerList. rewrite Hnew. cbn [method].
  rewrite <- list_filters_empty.
  destruct (client.ImageList _ _) as [summaries [e|]] eqn:Hlist.
  - rewrite List_eq, Hlist. reflexivity.
  - destruct (List_success _ _ _ Hlist) as (images & -> & Himages).
    exists images. split; [exact Himages|].
    cbn [log_of outcome_of fst snd List.map tbind].
    rewrite log_images_eq. cbn. rewrite app_nil_r. reflexivity.
Qed.

Lemma TestDockerList_logs_every_image_witness :
  NewClient (fun _ _ => inl engine_down) sample_Marshal sample_EncodeToString
    {| Host := "tcp://127.0.0.1:2376"; Registry := ""; User := ""; Passwd := "" |}
  = (Some {| cli := engine_down; dockerHost := "tcp://127.0.0.1:2376"; registry := "";
             registryAuthString := "e30=";
             registryAuthMap :=
               {[ "" := {| types.Username := ""; types.Password := "" |} ]};
             noCache := true; forceRm := true; pull := true |}, None)
  ∧ TestDockerList (fun _ _ => inl engine_down) sample_Marshal sample_EncodeToString
    = ([Call (ImageList_ {| types.Filters := ∅ |})],
       Returned (FATAL "list docker images failed:" connection_refused)).
Proof.
  split; [reflexivity|].
  exact (TestDockerList_logs_every_image (fun _ _ => inl engine_down) sample_Marshal
           sample_EncodeToString _ eq_refl).
Defined.

(** ** detectErrorMessage: how much of a clean stream is read *)

(** X17.  When [detectErrorMessage] returns nil it has decoded every
    message up to the end of the stream once, with one more [Decode] that
    found the end: the number of [Decode] calls is the number of messages
    before the end plus one. *)
Theorem detectErrorMessage_drains_clean_stream (rc : ReadCloser)
    (pre rest : list DecodeStep)
    (Hstream : stream rc = pre ++ rest)
    (Hpre : Forall clean pre)
    (Hend : end_of_stream rest) :
  detectErrorMessage (Some rc)
  = (replicate (S (List.length pre)) (Decode_ (handle rc)), Returned None).
Proof.
  cbn [detectErrorMessage]. rewrite Hstream, detectLoop_skip by exact Hpre.
  assert (H : detectLoop (handle rc) rest = ([Decode_ (handle rc)], Returned None)).
  { rewrite detectLoop_step. destruct rest as [|[jm|err] rest']; [reflexivity| |].
    - destruct Hend.
    - cbn in Hend. subst err. reflexivity. }
  rewrite H. cbn [log_of outcome_of fst snd]. f_equal.
  change (S (List.length pre)) with (1 + List.length pre)%nat.
  rewrite Nat.add_comm, replicate_add. reflexivity.
Qed.

Lemma detectErrorMessage_drains_clean_stream_witness :
  stream clean_body = [Msg progress_message; Msg progress_message] ++ []
  ∧ Forall clean [Msg progress_message; Msg progress_message]
  ∧ end_of_stream []
  ∧ detectErrorMessage (Some clean_body)
    = ([Decode_ 8; Decode_ 8; Decode_ 8], Returned None).
Proof.
  assert (Hpre : Forall clean [Msg progress_message; Msg progress_message])
    by (repeat constructor).
  split; [reflexivity|]. split; [exact Hpre|]. split; [exact I|].
  exact (detectErrorMessage_drains_clean_stream clean_body
           [Msg progress_message; Msg progress_message] [] eq_refl Hpre I).
Defined.
